(** * Personal Health Aggregator: the loader, the merger and the reporter

    A shallow embedding of [src/tool/data_loader.py], [src/data_loader.py],
    [src/tool/merger.py] and [src/tool/reporter.py], with the parts of the
    Python runtime they call ([datetime], [statistics.mean], [int], [float]).

    Layout: part I holds the definitions (the Python runtime first, then one
    module per source file), part II the lemmas and the theorems. *)

From stdpp Require Import gmap strings list sorting pretty.
From Stdlib Require Import ZArith Lia.

#[local] Set Warnings "-register-all".
#[local] Open Scope Z_scope.

(** ** Part I.1  Exceptions *)

(** The exception classes the program raises, catches or lets through.
    [ZoneInfoNotFoundError] is a subclass of [KeyError] in Python; the
    program names both in its handlers. *)
Inductive exn_class :=
| KeyError
| ValueError
| TypeError
| ZoneInfoNotFoundError
| AttributeError
| OverflowError
| StatisticsError
| OSError.

#[export] Instance exn_class_eq_dec : EqDecision exn_class.
Proof. solve_decision. Defined.

(** An exception: its class and [str(e)]. *)
Record exn := Exn { exn_type : exn_class; exn_str : string }.

#[export] Instance exn_eq_dec : EqDecision exn.
Proof. solve_decision. Defined.

(** [result A] is the outcome of a block that either returns or raises. *)
Inductive result (A : Type) : Type :=
| Raise (e : exn)
| Return (a : A).
Arguments Raise {A} e.
Arguments Return {A} a.

Definition raise {A} (c : exn_class) (msg : string) : result A := Raise (Exn c msg).

#[export] Instance result_ret : MRet result := λ A a, Return a.
#[export] Instance result_bind : MBind result := λ A B k x,
  match x with
  | Raise e => Raise e
  | Return a => k a
  end.

(** [try_except x h]: run [x]; an exception for which the handler [h] gives
    a replacement is handled, any other one propagates. *)
Definition try_except {A} (x : result A) (h : exn → option (result A)) : result A :=
  match x with
  | Raise e => match h e with Some r => r | None => Raise e end
  | Return a => Return a
  end.

(** ** Part I.2  Floats and decoded JSON values *)

(** A Python float: NaN, an infinity, or the finite number [m * 2^e].
    The sign of zero is not kept: no test of the program tells [-0.0] from
    [0.0]. *)
Inductive pyfloat :=
| FNaN
| FInf (neg : bool)
| FFin (m e : Z).

#[export] Instance pyfloat_eq_dec : EqDecision pyfloat.
Proof. solve_decision. Defined.

(** What [json.load] returns. *)
Inductive json :=
| JNull
| JBool (b : bool)
| JInt (z : Z)
| JFloat (f : pyfloat)
| JStr (s : string)
| JArr (l : list json)
| JObj (m : gmap string json).

(** Exact comparison of the finite float [m * 2^e] with the integer [k]. *)
Definition fin_cmp_int (m e k : Z) : comparison :=
  if 0 <=? e then (m * 2 ^ e ?= k) else (m ?= k * 2 ^ (- e)).

(** [x < k], [x > k], [x >= k], [x <= k] for a float [x] and an int [k];
    every comparison with NaN is false. *)
Definition float_lt_int (x : pyfloat) (k : Z) : bool :=
  match x with
  | FNaN => false
  | FInf neg => neg
  | FFin m e => match fin_cmp_int m e k with Lt => true | _ => false end
  end.

Definition float_gt_int (x : pyfloat) (k : Z) : bool :=
  match x with
  | FNaN => false
  | FInf neg => negb neg
  | FFin m e => match fin_cmp_int m e k with Gt => true | _ => false end
  end.

Definition float_ge_int (x : pyfloat) (k : Z) : bool :=
  match x with
  | FNaN => false
  | FInf neg => negb neg
  | FFin m e => match fin_cmp_int m e k with Lt => false | _ => true end
  end.

Definition float_le_int (x : pyfloat) (k : Z) : bool :=
  match x with
  | FNaN => false
  | FInf neg => neg
  | FFin m e => match fin_cmp_int m e k with Gt => false | _ => true end
  end.

(** Round a positive integer to 53 significant bits, ties to even. *)
Definition round53 (a : Z) : Z * Z :=
  let k := Z.log2 a - 52 in
  if k <=? 0 then (a, 0)
  else
    let q := Z.shiftr a k in
    let r := a mod 2 ^ k in
    let half := 2 ^ (k - 1) in
    let q' := if (half <? r) || ((r =? half) && Z.odd q) then q + 1 else q in
    (q', k).

(** [float(z)] for an int: the nearest double, [OverflowError] beyond the
    largest one. *)
Definition float_of_int (z : Z) : option pyfloat :=
  let '(q, k) := round53 (Z.abs z) in
  if 2 ^ 1024 <=? q * 2 ^ k then None
  else Some (FFin (Z.sgn z * q) k).

(** [int(x)] for a finite float: truncation towards zero. *)
Definition trunc_fin (m e : Z) : Z :=
  if 0 <=? e then m * 2 ^ e else Z.quot m (2 ^ (- e)).

(** ** Part I.3  Python's [datetime] *)

Module pydatetime.

Record date := Date { year : Z; month : Z; day : Z }.

(** A [datetime]; [utcoff] is what [utcoffset()] reports in seconds,
    [None] for a naive value. *)
Record datetime := DateTime {
  dt_date : date;
  hour : Z;
  minute : Z;
  second : Z;
  microsecond : Z;
  utcoff : option Z
}.

#[export] Instance date_eq_dec : EqDecision date.
Proof. solve_decision. Defined.

#[export] Instance datetime_eq_dec : EqDecision datetime.
Proof. solve_decision. Defined.

#[export] Instance date_countable : Countable date.
Proof.
  refine (inj_countable' (λ d, (year d, month d, day d))
                         (λ t, Date t.1.1 t.1.2 t.2) _).
  by intros [].
Defined.

Definition MINYEAR : Z := 1.
Definition MAXYEAR : Z := 9999.
Definition MAXORDINAL : Z := 3652059.

Definition is_leap (y : Z) : bool :=
  (y mod 4 =? 0) && (negb (y mod 100 =? 0) || (y mod 400 =? 0)).

Definition days_before_year (y : Z) : Z :=
  let y' := y - 1 in
  y' * 365 + y' / 4 - y' / 100 + y' / 400.

Definition DAYS_IN_MONTH (m : Z) : Z :=
  match m with
  | 1 => 31 | 2 => 28 | 3 => 31 | 4 => 30 | 5 => 31 | 6 => 30
  | 7 => 31 | 8 => 31 | 9 => 30 | 10 => 31 | 11 => 30 | 12 => 31
  | _ => -1
  end.

Definition DAYS_BEFORE_MONTH (m : Z) : Z :=
  match m with
  | 1 => 0 | 2 => 31 | 3 => 59 | 4 => 90 | 5 => 120 | 6 => 151
  | 7 => 181 | 8 => 212 | 9 => 243 | 10 => 273 | 11 => 304 | 12 => 334
  | _ => -1
  end.

Definition days_in_month (y m : Z) : Z :=
  if (m =? 2) && is_leap y then 29 else DAYS_IN_MONTH m.

Definition days_before_month (y m : Z) : Z :=
  DAYS_BEFORE_MONTH m + (if (2 <? m) && is_leap y then 1 else 0).

Definition ymd2ord (y m d : Z) : Z :=
  days_before_year y + days_before_month y m + d.

Definition DI400Y : Z := 146097.
Definition DI100Y : Z := 36524.
Definition DI4Y : Z := 1461.

Definition ord2ymd (n : Z) : date :=
  let n := n - 1 in
  let n400 := n / DI400Y in
  let n := n mod DI400Y in
  let y := n400 * 400 + 1 in
  let n100 := n / DI100Y in
  let n := n mod DI100Y in
  let n4 := n / DI4Y in
  let n := n mod DI4Y in
  let n1 := n / 365 in
  let n := n mod 365 in
  let y := y + n100 * 100 + n4 * 4 + n1 in
  if (n1 =? 4) || (n100 =? 4) then Date (y - 1) 12 31
  else
    let leapyear := (n1 =? 3) && (negb (n4 =? 24) || (n100 =? 3)) in
    let m := Z.shiftr (n + 50) 5 in
    let preceding :=
      DAYS_BEFORE_MONTH m + (if (2 <? m) && leapyear then 1 else 0) in
    if n <? preceding then
      let m := m - 1 in
      let preceding :=
        preceding - (DAYS_IN_MONTH m + (if (m =? 2) && leapyear then 1 else 0)) in
      Date y m (n - preceding + 1)
    else Date y m (n - preceding + 1).

Definition toordinal (d : date) : Z := ymd2ord (year d) (month d) (day d).

(** [weekday()]: Monday is 0. *)
Definition weekday (d : date) : Z := (toordinal d + 6) mod 7.

Definition check_date_fields (y m d : Z) : bool :=
  (MINYEAR <=? y) && (y <=? MAXYEAR) && (1 <=? m) && (m <=? 12)
  && (1 <=? d) && (d <=? days_in_month y m).

Definition check_time_fields (H M S us : Z) : bool :=
  (0 <=? H) && (H <=? 23) && (0 <=? M) && (M <=? 59)
  && (0 <=? S) && (S <=? 59) && (0 <=? us) && (us <=? 999999).

(** The constructor [datetime(y, m, d, H, M, S)]: [None] stands for its
    [ValueError] on a field out of range. *)
Definition datetime_new (y m d H M S : Z) : option datetime :=
  if check_date_fields y m d && check_time_fields H M S 0
  then Some (DateTime (Date y m d) H M S 0 None)
  else None.

(** [dt.date()]. *)
Definition date_of (dt : datetime) : date := dt_date dt.

(** [dt - timedelta(seconds=off)], keeping [dt]'s time-zone attribute:
    [None] stands for the [OverflowError] of a result outside years
    1..9999. *)
Definition sub_seconds (dt : datetime) (off : Z) : option datetime :=
  let total :=
    toordinal (dt_date dt) * 86400
    + hour dt * 3600 + minute dt * 60 + second dt - off in
  let days := total / 86400 in
  let secs := total mod 86400 in
  let H := secs / 3600 in
  let rem := secs mod 3600 in
  if (0 <? days) && (days <=? MAXORDINAL)
  then Some (DateTime (ord2ymd days) H (rem / 60) (rem mod 60)
                      (microsecond dt) (utcoff dt))
  else None.

Fixpoint zeros (n : nat) : string :=
  match n with
  | O => ""
  | S n => "0" +:+ zeros n
  end.

(** ["%0<w>d" % z] for [0 <= z]. *)
Definition zpad (w : nat) (z : Z) : string :=
  let s := pretty z in
  zeros (w - String.length s) +:+ s.

(** [str(d)], that is [d.isoformat()]. *)
Definition date_isoformat (d : date) : string :=
  zpad 4 (year d) +:+ "-" +:+ zpad 2 (month d) +:+ "-" +:+ zpad 2 (day d).

Definition format_offset (off : option Z) : string :=
  match off with
  | None => ""
  | Some o =>
      let sign := if o <? 0 then "-" else "+" in
      let a := Z.abs o in
      let hh := a / 3600 in
      let mm := (a mod 3600) / 60 in
      let ss := a mod 60 in
      sign +:+ zpad 2 hh +:+ ":" +:+ zpad 2 mm
      +:+ (if ss =? 0 then "" else ":" +:+ zpad 2 ss)
  end.

(** [dt.isoformat()]. *)
Definition isoformat (dt : datetime) : string :=
  date_isoformat (dt_date dt) +:+ "T"
  +:+ zpad 2 (hour dt) +:+ ":" +:+ zpad 2 (minute dt) +:+ ":" +:+ zpad 2 (second dt)
  +:+ (if microsecond dt =? 0 then "" else "." +:+ zpad 6 (microsecond dt))
  +:+ format_offset (utcoff dt).

(** The order of [date] values: by year, then month, then day. *)
Definition date_key (d : date) : Z * Z * Z := (year d, month d, day d).

Definition date_leb (a b : date) : bool :=
  (year a <? year b)
  || ((year a =? year b)
      && ((month a <? month b)
          || ((month a =? month b) && (day a <=? day b)))).

Definition date_le (a b : date) : Prop := date_leb a b = true.

#[export] Instance date_le_dec : RelDecision date_le.
Proof. intros a b. unfold date_le. apply _. Defined.

(** A time zone as [zoneinfo] presents it to [datetime]: the offset from
    UTC, in seconds, of a wall-clock time (with [fold = 0], the value
    [strptime] and [replace] leave). *)
Record tzinfo := TzInfo { utcoffset : datetime → Z }.

End pydatetime.
Export pydatetime.

(** ** Part I.4  The host platform *)

(** What the program obtains from the Python runtime and the host and this
    development does not look inside: the IANA time-zone database, the
    text matching of [strptime] and [fromisoformat], the parsing of numbers
    written as strings, the rendering of values as text, the wording of the
    runtime's own error messages, the rounding of a float to two decimals
    and the clock. *)
Class Host := {
  (** [ZoneInfo(key)] for a [str] key: the zone, or the exception raised
      ([ZoneInfoNotFoundError] for an unknown key, [ValueError] for a
      malformed one, ...). *)
  ZoneInfo : string → result tzinfo;
  (** The matching stage of [datetime.strptime(s, '%Y-%m-%d %H:%M:%S')]:
      the six numbers read, or [None] when the text does not match. *)
  strptime_match : string → option (Z * Z * Z * Z * Z * Z);
  (** [datetime.fromisoformat(s)]; [None] for its [ValueError]. *)
  fromisoformat : string → option datetime;
  (** [int(s)] and [float(s)] for a [str]; [None] for their [ValueError]. *)
  int_of_str : string → option Z;
  float_of_str : string → option pyfloat;
  (** [str(x)] for a float, and for a list or a dict. *)
  float_str : pyfloat → string;
  container_str : json → string;
  (** [str(e)] of the exception the runtime raises when the named
      operation rejects the value. *)
  runtime_msg : string → json → string;
  (** [round(x, 2)] for a float. *)
  round2 : pyfloat → pyfloat;
  (** [datetime.now(ZoneInfo('UTC'))]. *)
  now_utc : datetime
}.

(** ** Part I.5  [src/tool/models.py] *)

Module SleepRecord.
Record t := mk {
  date_utc : date;
  sleep_start_utc : datetime;
  sleep_end_utc : datetime;
  duration_hours : pyfloat;
  quality_score : Z
}.
End SleepRecord.

Module WorkoutRecord.
Record t := mk {
  id : string;
  timestamp_utc : datetime;
  date_utc : date;
  original_timestamp : json;
  original_timezone : json;
  workout_type : string;
  duration_min : Z;
  calories : Z;
  crossed_day_boundary : bool
}.
End WorkoutRecord.

Module DailyAggregate.
Record t := mk {
  date_utc : option date;
  sleep_hours : option pyfloat;
  sleep_quality : option Z;
  workouts : list WorkoutRecord.t;
  total_calories : Z;
  total_workout_minutes : Z
}.

(** [DailyAggregate(date_utc=None)]: the defaults, and the fresh empty
    list [__post_init__] puts in [workouts]. *)
Definition init : t := mk None None None [] 0 0.
End DailyAggregate.

(** ** Part I.6  Built-in operations on decoded JSON values *)

Section builtins.
Context `{Host}.

(** [k in x]. *)
Definition contains (x : json) (k : string) : result bool :=
  match x with
  | JObj m => Return (bool_decide (k ∈ dom m))
  | JArr l =>
      Return (existsb (λ j, match j with
                            | JStr s => bool_decide (s = k)
                            | _ => false
                            end) l)
  | JStr s => Return (bool_decide (is_Some (String.index 0 k s)))
  | _ => raise TypeError (runtime_msg "in" x)
  end.

(** [x[k]] for a [str] key [k]. *)
Definition getitem (x : json) (k : string) : result json :=
  match x with
  | JObj m =>
      match m !! k with
      | Some v => Return v
      | None => raise KeyError ("'" +:+ k +:+ "'")
      end
  | _ => raise TypeError (runtime_msg "getitem" x)
  end.

(** [set(x.keys())]. *)
Definition keys (x : json) : result (gset string) :=
  match x with
  | JObj m => Return (dom m)
  | _ => raise AttributeError (runtime_msg "keys" x)
  end.

(** [int(x)]. *)
Definition int (x : json) : result Z :=
  match x with
  | JInt z => Return z
  | JBool b => Return (if b then 1 else 0)
  | JFloat (FFin m e) => Return (trunc_fin m e)
  | JFloat FNaN => raise ValueError (runtime_msg "int" x)
  | JFloat (FInf _) => raise OverflowError (runtime_msg "int" x)
  | JStr s =>
      match int_of_str s with
      | Some z => Return z
      | None => raise ValueError (runtime_msg "int" x)
      end
  | _ => raise TypeError (runtime_msg "int" x)
  end.

(** [float(x)]. *)
Definition float (x : json) : result pyfloat :=
  match x with
  | JInt z =>
      match float_of_int z with
      | Some f => Return f
      | None => raise OverflowError (runtime_msg "float" x)
      end
  | JBool b => Return (FFin (if b then 1 else 0) 0)
  | JFloat f => Return f
  | JStr s =>
      match float_of_str s with
      | Some f => Return f
      | None => raise ValueError (runtime_msg "float" x)
      end
  | _ => raise TypeError (runtime_msg "float" x)
  end.

(** [s.replace('Z', '+00:00')] on a [str]. *)
Fixpoint replace_Z (s : string) : string :=
  match s with
  | "" => ""
  | String c s' =>
      if Ascii.eqb c (Ascii.ascii_of_nat 90)
      then "+00:00" +:+ replace_Z s'
      else String c (replace_Z s')
  end.

(** [x.replace('Z', '+00:00')]: only a [str] has the method. *)
Definition replace_Z_method (x : json) : result string :=
  match x with
  | JStr s => Return (replace_Z s)
  | _ => raise AttributeError (runtime_msg "replace" x)
  end.

(** [datetime.fromisoformat(s)] as a call. *)
Definition fromisoformat_call (s : string) : result datetime :=
  match fromisoformat s with
  | Some dt => Return dt
  | None => raise ValueError (runtime_msg "fromisoformat" (JStr s))
  end.

(** [datetime.strptime(x, '%Y-%m-%d %H:%M:%S')]: a [TypeError] unless [x]
    is a [str]; a [ValueError] when the text does not match or the
    numbers read are no date and time. *)
Definition strptime (x : json) : result datetime :=
  match x with
  | JStr s =>
      match strptime_match s with
      | Some (y, m, d, hh, mi, ss) =>
          match datetime_new y m d hh mi ss with
          | Some dt => Return dt
          | None => raise ValueError (runtime_msg "strptime" x)
          end
      | None => raise ValueError (runtime_msg "strptime" x)
      end
  | _ => raise TypeError (runtime_msg "strptime" x)
  end.

(** [ZoneInfo(x)]: a [TypeError] unless the key is a [str]. *)
Definition ZoneInfo_call (x : json) : result tzinfo :=
  match x with
  | JStr s => ZoneInfo s
  | _ => raise TypeError (runtime_msg "ZoneInfo" x)
  end.

(** [dt.replace(tzinfo=tz).astimezone(ZoneInfo('UTC'))] for a naive [dt]:
    the offset [tz] reports for the wall time is subtracted, and the
    result carries the zone UTC, whose own offset is zero.  The value is
    [OverflowError] when the instant leaves the years 1..9999. *)
Definition astimezone_utc (tz : tzinfo) (dt : datetime) : result datetime :=
  match sub_seconds dt (utcoffset tz dt) with
  | Some u =>
      Return (DateTime (dt_date u) (hour u) (minute u) (second u)
                       (microsecond u) (Some 0))
  | None => raise OverflowError "date value out of range"
  end.

(** [str(x)], also what an f-string field renders. *)
Definition str (x : json) : string :=
  match x with
  | JStr s => s
  | JInt z => pretty z
  | JBool b => if b then "True" else "False"
  | JNull => "None"
  | JFloat f => float_str f
  | _ => container_str x
  end.

(** [type(x).__name__]. *)
Definition type_name (x : json) : string :=
  match x with
  | JNull => "NoneType"
  | JBool _ => "bool"
  | JInt _ => "int"
  | JFloat _ => "float"
  | JStr _ => "str"
  | JArr _ => "list"
  | JObj _ => "dict"
  end.

(** [isinstance(e, classes)]: [ZoneInfoNotFoundError] is a [KeyError]. *)
Definition catches (classes : list exn_class) (e : exn) : bool :=
  bool_decide (exn_type e ∈ classes)
  || (bool_decide (exn_type e = ZoneInfoNotFoundError)
      && bool_decide (KeyError ∈ classes)).

(** [for idx, x in enumerate(l): st = body(idx, x, st)], started at
    index [idx]; an exception leaving the body ends the loop. *)
Fixpoint for_enumerate {St} (body : nat → json → St → result St)
    (idx : nat) (l : list json) (st : St) : result St :=
  match l with
  | [] => Return st
  | x :: l' => st' ← body idx x st; for_enumerate body (S idx) l' st'
  end.

(** The loop body of a skip-and-warn loader:
    [try: records.append(f(idx, entry))]
    [except cs as e: skipped.append((idx, str(e)))]. *)
Definition skip_and_warn {R} (f : nat → json → result R) (cs : list exn_class)
    (idx : nat) (entry : json) (st : list R * list (nat * string))
    : result (list R * list (nat * string)) :=
  let '(records, skipped) := st in
  try_except
    (r ← f idx entry; Return (records ++ [r], skipped))
    (λ e, if catches cs e
          then Some (Return (records, skipped ++ [(idx, exn_str e)]))
          else None).

(** The loop body of a fail-fast loader:
    [try: records.append(f(idx, entry))]
    [except cs as e: raise ValueError(f"Error processing <what> record {idx}: {e}")]. *)
Definition fail_fast {R} (f : nat → json → result R) (cs : list exn_class)
    (what : string) (idx : nat) (entry : json) (records : list R)
    : result (list R) :=
  try_except
    (r ← f idx entry; Return (records ++ [r]))
    (λ e, if catches cs e
          then Some (raise ValueError
                       ("Error processing " +:+ what +:+ " record "
                        +:+ pretty idx +:+ ": " +:+ exn_str e))
          else None).

(** The double-quote character, for [str(KeyError(msg))]. *)
Definition dquote : string := String (Ascii.ascii_of_nat 34) "".

(** [sorted(s)] for a set of [str]. *)
Definition sorted (s : gset string) : list string :=
  merge_sort String.le (elements s).

(** [sep.join(l)]. *)
Definition join (sep : string) (l : list string) : string :=
  String.concat sep l.

End builtins.

Arguments catches : simpl never.

(** ** Part I.7  [src/tool/data_loader.py]: the skip-and-warn loaders *)

Module tool_data_loader.
Section with_host.
Context `{Host}.

Definition SLEEP_REQUIRED_FIELDS : gset string :=
  {[ "sleep_start"; "sleep_end"; "duration_hours"; "quality_score" ]}.

Definition WORKOUT_REQUIRED_FIELDS : gset string :=
  {[ "id"; "timestamp"; "tz"; "type"; "duration_min"; "calories" ]}.

Definition validate_sleep_entry (entry : json) (index : nat) : result () :=
  ks ← keys entry;
  let missing_fields := SLEEP_REQUIRED_FIELDS ∖ ks in
  if bool_decide (missing_fields ≠ ∅) then
    raise ValueError
      ("Sleep record " +:+ pretty index +:+ ": Missing required fields: "
       +:+ join ", " (sorted missing_fields) +:+ ". "
       +:+ "Required: " +:+ join ", " (sorted SLEEP_REQUIRED_FIELDS))
  else Return ().

Definition validate_workout_entry (entry : json) (index : nat) : result () :=
  ks ← keys entry;
  let missing_fields := WORKOUT_REQUIRED_FIELDS ∖ ks in
  if bool_decide (missing_fields ≠ ∅) then
    raise ValueError
      ("Workout record " +:+ pretty index +:+ ": Missing required fields: "
       +:+ join ", " (sorted missing_fields) +:+ ". "
       +:+ "Required: " +:+ join ", " (sorted WORKOUT_REQUIRED_FIELDS))
  else Return ().

(** The body of the [try] of [load_sleep_data]'s loop, up to the record
    it appends. *)
Definition sleep_entry (idx : nat) (entry : json) : result SleepRecord.t :=
  validate_sleep_entry entry idx;;
  '(sleep_start, sleep_end) ←
    try_except
      (a ← getitem entry "sleep_start";
       a' ← replace_Z_method a;
       sleep_start ← fromisoformat_call a';
       b ← getitem entry "sleep_end";
       b' ← replace_Z_method b;
       sleep_end ← fromisoformat_call b';
       Return (sleep_start, sleep_end))
      (λ e, if catches [ValueError] e
            then Some (raise ValueError
                         ("Invalid timestamp format. Error: " +:+ exn_str e))
            else None);
  '(duration_hours, quality_score) ←
    try_except
      (a ← getitem entry "duration_hours";
       duration_hours ← float a;
       b ← getitem entry "quality_score";
       quality_score ← int b;
       if float_lt_int duration_hours 0 || float_gt_int duration_hours 24 then
         raise ValueError
           ("Duration must be between 0 and 24 hours, got "
            +:+ float_str duration_hours)
       else if (quality_score <? 0) || (100 <? quality_score) then
         raise ValueError
           ("Quality score must be between 0 and 100, got "
            +:+ pretty quality_score)
       else Return (duration_hours, quality_score))
      (λ e, if catches [ValueError; TypeError] e
            then Some (raise ValueError
                         ("Invalid numeric values. " +:+ exn_str e))
            else None);
  let date_utc := date_of sleep_end in
  Return (SleepRecord.mk date_utc sleep_start sleep_end
                         duration_hours quality_score).

(** [load_sleep_data], from the decoded document on: the records it
    returns and the warnings [(idx, error)] it prints. *)
Definition load_sleep_data (data : json)
    : result (list SleepRecord.t * list (nat * string)) :=
  present ← contains data "records";
  if negb present then
    raise KeyError
      (dquote +:+ "Sleep data JSON must contain 'records' key" +:+ dquote)
  else
    log ← getitem data "records";
    match log with
    | JArr l =>
        for_enumerate
          (skip_and_warn sleep_entry [KeyError; ValueError; TypeError])
          0%nat l ([], [])
    | _ => raise TypeError ("'records' must be a list, got " +:+ type_name log)
    end.

(** The body of the [try] of [load_workout_data]'s loop. *)
Definition workout_entry (idx : nat) (entry : json) : result WorkoutRecord.t :=
  validate_workout_entry entry idx;;
  local_tz ←
    try_except
      (a ← getitem entry "tz"; ZoneInfo_call a)
      (λ e, if catches [ZoneInfoNotFoundError] e then
              Some (a ← getitem entry "tz";
                    raise ValueError
                      ("Invalid timezone '" +:+ str a
                       +:+ "'. Use IANA timezone identifiers."))
            else if catches [KeyError] e then
              Some (raise ValueError "'tz' field is required")
            else None);
  local_dt ←
    try_except
      (a ← getitem entry "timestamp"; strptime a)
      (λ e, if catches [ValueError] e
            then Some (raise ValueError
                         ("Invalid timestamp format. Error: " +:+ exn_str e))
            else None);
  utc_dt ← astimezone_utc local_tz local_dt;
  let local_date := date_of local_dt in
  let utc_date := date_of utc_dt in
  let crossed_boundary := bool_decide (local_date ≠ utc_date) in
  '(duration_min, calories) ←
    try_except
      (a ← getitem entry "duration_min";
       duration_min ← int a;
       b ← getitem entry "calories";
       calories ← int b;
       if (duration_min <? 0) || (1440 <? duration_min) then
         raise ValueError
           ("Duration must be between 0 and 1440 minutes, got "
            +:+ pretty duration_min)
       else if calories <? 0 then
         raise ValueError
           ("Calories must be non-negative, got " +:+ pretty calories)
       else Return (duration_min, calories))
      (λ e, if catches [ValueError; TypeError] e
            then Some (raise ValueError
                         ("Invalid numeric values. " +:+ exn_str e))
            else None);
  id ← getitem entry "id";
  original_timestamp ← getitem entry "timestamp";
  original_timezone ← getitem entry "tz";
  type ← getitem entry "type";
  Return (WorkoutRecord.mk (str id) utc_dt utc_date original_timestamp
                           original_timezone (str type) duration_min
                           calories crossed_boundary).

(** [load_workout_data], from the decoded document on. *)
Definition load_workout_data (data : json)
    : result (list WorkoutRecord.t * list (nat * string)) :=
  present ← contains data "workout_log";
  if negb present then
    raise KeyError
      (dquote +:+ "Workout data JSON must contain 'workout_log' key" +:+ dquote)
  else
    log ← getitem data "workout_log";
    match log with
    | JArr l =>
        for_enumerate
          (skip_and_warn workout_entry
             [KeyError; ValueError; ZoneInfoNotFoundError; TypeError])
          0%nat l ([], [])
    | _ =>
        raise TypeError ("'workout_log' must be a list, got " +:+ type_name log)
    end.

End with_host.
End tool_data_loader.

(** ** Part I.8  [src/data_loader.py]: the fail-fast loaders

    The file imports everything of [tool.data_loader] and then defines
    [validate_workout_entry], [load_sleep_data] and [load_workout_data]
    again; [validate_sleep_entry] and the two sets of required fields are
    the imported ones. *)

Module data_loader.
Section with_host.
Context `{Host}.

Definition SLEEP_REQUIRED_FIELDS := tool_data_loader.SLEEP_REQUIRED_FIELDS.
Definition WORKOUT_REQUIRED_FIELDS := tool_data_loader.WORKOUT_REQUIRED_FIELDS.
Definition validate_sleep_entry := tool_data_loader.validate_sleep_entry.

Definition validate_workout_entry (entry : json) (index : nat) : result () :=
  ks ← keys entry;
  let missing_fields := WORKOUT_REQUIRED_FIELDS ∖ ks in
  if bool_decide (missing_fields ≠ ∅) then
    raise ValueError
      ("Workout record " +:+ pretty index +:+ ": Missing required fields: "
       +:+ join ", " (sorted missing_fields) +:+ ". "
       +:+ "Required: " +:+ join ", " (sorted WORKOUT_REQUIRED_FIELDS))
  else Return ().

Definition sleep_entry (idx : nat) (entry : json) : result SleepRecord.t :=
  validate_sleep_entry entry idx;;
  '(sleep_start, sleep_end) ←
    try_except
      (a ← getitem entry "sleep_start";
       a' ← replace_Z_method a;
       sleep_start ← fromisoformat_call a';
       b ← getitem entry "sleep_end";
       b' ← replace_Z_method b;
       sleep_end ← fromisoformat_call b';
       Return (sleep_start, sleep_end))
      (λ e, if catches [ValueError] e
            then Some (raise ValueError
                         ("Sleep record " +:+ pretty idx
                          +:+ ": Invalid timestamp format. "
                          +:+ "Expected ISO 8601 format (e.g., '2023-10-01T00:30:00Z'). Error: "
                          +:+ exn_str e))
            else None);
  '(duration_hours, quality_score) ←
    try_except
      (a ← getitem entry "duration_hours";
       duration_hours ← float a;
       b ← getitem entry "quality_score";
       quality_score ← int b;
       if float_lt_int duration_hours 0 || float_gt_int duration_hours 24 then
         raise ValueError
           ("Duration must be between 0 and 24 hours, got "
            +:+ float_str duration_hours)
       else if (quality_score <? 0) || (100 <? quality_score) then
         raise ValueError
           ("Quality score must be between 0 and 100, got "
            +:+ pretty quality_score)
       else Return (duration_hours, quality_score))
      (λ e, if catches [ValueError; TypeError] e
            then Some (raise ValueError
                         ("Sleep record " +:+ pretty idx
                          +:+ ": Invalid numeric values. " +:+ exn_str e))
            else None);
  let date_utc := date_of sleep_end in
  Return (SleepRecord.mk date_utc sleep_start sleep_end
                         duration_hours quality_score).

(** [load_sleep_data], from the decoded document on: the first invalid
    record ends the load with a [ValueError]. *)
Definition load_sleep_data (data : json) : result (list SleepRecord.t) :=
  present ← contains data "records";
  if negb present then
    raise KeyError
      (dquote +:+ "Sleep data JSON must contain 'records' key" +:+ dquote)
  else
    log ← getitem data "records";
    match log with
    | JArr l =>
        for_enumerate
          (fail_fast sleep_entry [KeyError; ValueError; TypeError] "sleep")
          0%nat l []
    | _ => raise TypeError ("'records' must be a list, got " +:+ type_name log)
    end.

Definition workout_entry (idx : nat) (entry : json) : result WorkoutRecord.t :=
  validate_workout_entry entry idx;;
  local_tz ←
    try_except
      (a ← getitem entry "tz"; ZoneInfo_call a)
      (λ e, if catches [ZoneInfoNotFoundError] e then
              Some (a ← getitem entry "tz";
                    raise ValueError
                      ("Workout record " +:+ pretty idx
                       +:+ ": Invalid timezone '" +:+ str a +:+ "'. "
                       +:+ "Use IANA timezone identifiers (e.g., 'America/Los_Angeles', 'Europe/London'). "
                       +:+ "See: https://en.wikipedia.org/wiki/List_of_tz_database_time_zones"))
            else if catches [KeyError] e then
              Some (raise ValueError
                      ("Workout record " +:+ pretty idx
                       +:+ ": 'tz' field is required"))
            else None);
  local_dt ←
    try_except
      (a ← getitem entry "timestamp"; strptime a)
      (λ e, if catches [ValueError] e
            then Some (raise ValueError
                         ("Workout record " +:+ pretty idx
                          +:+ ": Invalid timestamp format. "
                          +:+ "Expected format: 'YYYY-MM-DD HH:MM:SS' (e.g., '2023-10-01 08:30:00'). Error: "
                          +:+ exn_str e))
            else None);
  utc_dt ← astimezone_utc local_tz local_dt;
  let local_date := date_of local_dt in
  let utc_date := date_of utc_dt in
  let crossed_boundary := bool_decide (local_date ≠ utc_date) in
  '(duration_min, calories) ←
    try_except
      (a ← getitem entry "duration_min";
       duration_min ← int a;
       b ← getitem entry "calories";
       calories ← int b;
       if (duration_min <? 0) || (1440 <? duration_min) then
         raise ValueError
           ("Duration must be between 0 and 1440 minutes, got "
            +:+ pretty duration_min)
       else if calories <? 0 then
         raise ValueError
           ("Calories must be non-negative, got " +:+ pretty calories)
       else Return (duration_min, calories))
      (λ e, if catches [ValueError; TypeError] e
            then Some (raise ValueError
                         ("Workout record " +:+ pretty idx
                          +:+ ": Invalid numeric values. " +:+ exn_str e))
            else None);
  id ← getitem entry "id";
  original_timestamp ← getitem entry "timestamp";
  original_timezone ← getitem entry "tz";
  type ← getitem entry "type";
  Return (WorkoutRecord.mk (str id) utc_dt utc_date original_timestamp
                           original_timezone (str type) duration_min
                           calories crossed_boundary).

(** [load_workout_data], from the decoded document on: the first invalid
    record ends the load with a [ValueError]. *)
Definition load_workout_data (data : json) : result (list WorkoutRecord.t) :=
  present ← contains data "workout_log";
  if negb present then
    raise KeyError
      (dquote +:+ "Workout data JSON must contain 'workout_log' key" +:+ dquote)
  else
    log ← getitem data "workout_log";
    match log with
    | JArr l =>
        for_enumerate
          (fail_fast workout_entry
             [KeyError; ValueError; ZoneInfoNotFoundError; TypeError] "workout")
          0%nat l []
    | _ =>
        raise TypeError ("'workout_log' must be a list, got " +:+ type_name log)
    end.

End with_host.
End data_loader.

(** ** Part I.9  [statistics.mean] and true division *)

(** [a / b] for ints with [b ≠ 0]: the double nearest to the quotient, ties
    to even, with the gradual underflow of the format; [None] stands for
    the [OverflowError] of a quotient beyond the largest double. *)
Definition true_div (a b : Z) : option pyfloat :=
  if a =? 0 then Some (FFin 0 0)
  else
    let s := Z.sgn a * Z.sgn b in
    let a := Z.abs a in
    let b := Z.abs b in
    let e0 := Z.log2 a - Z.log2 b in
    let e := if (if 0 <=? e0 then b * 2 ^ e0 <=? a else b <=? a * 2 ^ (- e0))
             then e0 else e0 - 1 in
    let k := Z.max (e - 52) (-1074) in
    let n := if 0 <=? k then a else a * 2 ^ (- k) in
    let d := if 0 <=? k then b * 2 ^ k else b in
    let q := n / d in
    let r := n mod d in
    let q' := if (d <? 2 * r) || ((2 * r =? d) && Z.odd q) then q + 1 else q in
    if 2 ^ 1024 <=? q' * 2 ^ k then None
    else Some (FFin (s * q') k).

Definition sum_Z (l : list Z) : Z := foldr Z.add 0 l.

(** [statistics.mean(data)] for a list of ints: the exact mean when it is
    an int, else the float of the exact fraction. *)
Definition mean (data : list Z) : result json :=
  let n := Z.of_nat (length data) in
  let total := sum_Z data in
  if n <? 1 then raise StatisticsError "mean requires at least one data point"
  else if total mod n =? 0 then Return (JInt (total / n))
  else match true_div total n with
       | Some f => Return (JFloat f)
       | None => raise OverflowError "integer division result too large for a float"
       end.

(** The double [m * 2^e] is the one nearest to the fraction [a / b], for
    [0 < b]: its exponent is at least that of the subnormal numbers, its
    mantissa has 53 bits (fewer only at the least exponent), it is finite,
    it lies within half a unit of its last place of [a / b], and on a tie
    its mantissa is even.  The fraction and the double are compared after
    scaling both to integers. *)
Definition nearest_double (a b : Z) (f : pyfloat) : Prop :=
  match f with
  | FFin m e =>
      let num := if 0 <=? e then a else a * 2 ^ (- e) in
      let den := if 0 <=? e then b * 2 ^ e else b in
      -1074 <= e
      ∧ Z.abs m <= 2 ^ 53
      ∧ (2 ^ 52 <= Z.abs m ∨ e = -1074)
      ∧ Z.abs m * 2 ^ e < 2 ^ 1024
      ∧ 2 * Z.abs (m * den - num) <= den
      ∧ (2 * Z.abs (m * den - num) = den → Z.even m = true)
  | _ => False
  end.

(** [v] is the arithmetic mean [total / n]: the int [z] with
    [z * n = total] when there is one, else the double nearest to the
    fraction. *)
Definition is_mean (total n : Z) (v : json) : Prop :=
  (∃ z, v = JInt z ∧ z * n = total)
  ∨ (total mod n ≠ 0 ∧ ∃ f, v = JFloat f ∧ nearest_double total n f).

(** ** Part I.10  [src/tool/merger.py] *)

Module tool_merger.

Import DailyAggregate.

Definition set_date_utc (v : date) (a : t) : t :=
  mk (Some v) (sleep_hours a) (sleep_quality a) (workouts a)
     (total_calories a) (total_workout_minutes a).
Definition set_sleep_hours (v : pyfloat) (a : t) : t :=
  mk (date_utc a) (Some v) (sleep_quality a) (workouts a)
     (total_calories a) (total_workout_minutes a).
Definition set_sleep_quality (v : Z) (a : t) : t :=
  mk (date_utc a) (sleep_hours a) (Some v) (workouts a)
     (total_calories a) (total_workout_minutes a).
Definition append_workout (w : WorkoutRecord.t) (a : t) : t :=
  mk (date_utc a) (sleep_hours a) (sleep_quality a) (workouts a ++ [w])
     (total_calories a) (total_workout_minutes a).
Definition add_total_calories (v : Z) (a : t) : t :=
  mk (date_utc a) (sleep_hours a) (sleep_quality a) (workouts a)
     (total_calories a + v) (total_workout_minutes a).
Definition add_total_workout_minutes (v : Z) (a : t) : t :=
  mk (date_utc a) (sleep_hours a) (sleep_quality a) (workouts a)
     (total_calories a) (total_workout_minutes a + v).

(** One statement [daily_data[day].field ...] on the [defaultdict]:
    the lookup creates the default aggregate for a new [day], the update
    [f] is then made in place. *)
Definition on_day (day : date) (f : t → t) (daily_data : gmap date t)
    : gmap date t :=
  <[day := f (default DailyAggregate.init (daily_data !! day))]> daily_data.

Definition add_sleep (daily_data : gmap date t) (sleep : SleepRecord.t)
    : gmap date t :=
  let day := SleepRecord.date_utc sleep in
  let daily_data := on_day day (set_date_utc day) daily_data in
  let daily_data :=
    on_day day (set_sleep_hours (SleepRecord.duration_hours sleep)) daily_data in
  on_day day (set_sleep_quality (SleepRecord.quality_score sleep)) daily_data.

Definition add_workout (daily_data : gmap date t) (workout : WorkoutRecord.t)
    : gmap date t :=
  let day := WorkoutRecord.date_utc workout in
  let daily_data := on_day day (set_date_utc day) daily_data in
  let daily_data := on_day day (append_workout workout) daily_data in
  let daily_data :=
    on_day day (add_total_calories (WorkoutRecord.calories workout)) daily_data in
  on_day day (add_total_workout_minutes (WorkoutRecord.duration_min workout))
         daily_data.

Definition merge_by_day (sleep_records : list SleepRecord.t)
    (workout_records : list WorkoutRecord.t) : gmap date t :=
  let daily_data := foldl add_sleep ∅ sleep_records in
  foldl add_workout daily_data workout_records.

(** [daily_data.values()]. *)
Definition values (daily_data : gmap date t) : list t :=
  (map_to_list daily_data).*2.

(** [d.sleep_hours is not None and d.sleep_hours < 6 and d.total_calories > 0]. *)
Definition is_low_sleep_day (d : t) : bool :=
  match sleep_hours d with
  | Some h => float_lt_int h 6 && (0 <? total_calories d)
  | None => false
  end.

(** [d.sleep_hours is not None and d.sleep_hours >= 7 and d.total_calories > 0]. *)
Definition is_good_sleep_day (d : t) : bool :=
  match sleep_hours d with
  | Some h => float_ge_int h 7 && (0 <? total_calories d)
  | None => false
  end.

Definition low_sleep_days (daily_data : gmap date t) : list t :=
  filter (λ d, is_low_sleep_day d = true) (values daily_data).

Definition good_sleep_days (daily_data : gmap date t) : list t :=
  filter (λ d, is_good_sleep_day d = true) (values daily_data).

(** [d.sleep_hours < 6] and [d.sleep_hours >= 7] on a day that has a
    sleep value. *)
Definition hours_lt (k : Z) (d : t) : bool :=
  match sleep_hours d with Some h => float_lt_int h k | None => false end.
Definition hours_ge (k : Z) (d : t) : bool :=
  match sleep_hours d with Some h => float_ge_int h k | None => false end.

(** [sum(1 for d in l if p(d))]. *)
Definition count (p : t → bool) (l : list t) : Z :=
  Z.of_nat (length (filter (λ d, p d = true) l)).

Definition rate (num den : Z) : result json :=
  match true_div num den with
  | Some f => Return (JFloat f)
  | None => raise OverflowError "integer division result too large for a float"
  end.

Definition calculate_correlations (daily_data : gmap date t)
    : result (gmap string json) :=
  let results : gmap string json := ∅ in
  let low_sleep_days := low_sleep_days daily_data in
  let good_sleep_days := good_sleep_days daily_data in
  results ←
    (if bool_decide (low_sleep_days ≠ []) then
       avg ← mean (total_calories <$> low_sleep_days);
       let results := <["avg_calories_low_sleep" := avg]> results in
       Return (<["low_sleep_day_count" :=
                   JInt (Z.of_nat (length low_sleep_days))]> results)
     else Return results);
  results ←
    (if bool_decide (good_sleep_days ≠ []) then
       avg ← mean (total_calories <$> good_sleep_days);
       let results := <["avg_calories_good_sleep" := avg]> results in
       Return (<["good_sleep_day_count" :=
                   JInt (Z.of_nat (length good_sleep_days))]> results)
     else Return results);
  let days_with_sleep_data :=
    filter (λ d, is_Some (sleep_hours d)) (values daily_data) in
  if bool_decide (days_with_sleep_data ≠ []) then
    let low_sleep_with_workout :=
      count (λ d, hours_lt 6 d && (0 <? length (workouts d))%nat)
            days_with_sleep_data in
    let good_sleep_with_workout :=
      count (λ d, hours_ge 7 d && (0 <? length (workouts d))%nat)
            days_with_sleep_data in
    let total_low_sleep := count (hours_lt 6) days_with_sleep_data in
    let total_good_sleep := count (hours_ge 7) days_with_sleep_data in
    results ←
      (if 0 <? total_low_sleep then
         r ← rate low_sleep_with_workout total_low_sleep;
         Return (<["workout_rate_low_sleep" := r]> results)
       else Return results);
    (if 0 <? total_good_sleep then
       r ← rate good_sleep_with_workout total_good_sleep;
       Return (<["workout_rate_good_sleep" := r]> results)
     else Return results)
  else Return results.

End tool_merger.

(** ** Part I.11  [src/tool/reporter.py]: [generate_json_output] *)

Module tool_reporter.
Section with_host.
Context `{Host}.

(** A dict display [{k1: v1, ...}] with distinct keys. *)
Definition dict (l : list (string * json)) : json := JObj (list_to_map l).

(** [round(x, 2)]: an int is returned as it is. *)
Definition round_2 (x : json) : result json :=
  match x with
  | JInt z => Return (JInt z)
  | JBool b => Return (JInt (if b then 1 else 0))
  | JFloat f => Return (JFloat (round2 f))
  | _ => raise TypeError (runtime_msg "round" x)
  end.

Definition date_ltb (a b : date) : bool := date_leb a b && negb (date_leb b a).

(** [min(l)] and [max(l)] for dates: a [ValueError] on no element. *)
Definition min_date (l : list date) : result date :=
  match l with
  | [] => raise ValueError (runtime_msg "min" (JArr []))
  | x :: l' => Return (foldl (λ m d, if date_ltb d m then d else m) x l')
  end.

Definition max_date (l : list date) : result date :=
  match l with
  | [] => raise ValueError (runtime_msg "max" (JArr []))
  | x :: l' => Return (foldl (λ m d, if date_ltb m d then d else m) x l')
  end.

(** [merged.keys()]. *)
Definition dict_keys (merged : gmap date DailyAggregate.t) : list date :=
  (map_to_list merged).*1.

(** [sorted(merged.keys())]. *)
Definition sorted_keys (merged : gmap date DailyAggregate.t) : list date :=
  merge_sort date_le (dict_keys merged).

Definition workout_json (workout : WorkoutRecord.t) : json :=
  dict [ ("id", JStr (WorkoutRecord.id workout));
         ("type", JStr (WorkoutRecord.workout_type workout));
         ("duration_min", JInt (WorkoutRecord.duration_min workout));
         ("calories", JInt (WorkoutRecord.calories workout));
         ("timestamp_utc", JStr (isoformat (WorkoutRecord.timestamp_utc workout)));
         ("original_timestamp", WorkoutRecord.original_timestamp workout);
         ("original_timezone", WorkoutRecord.original_timezone workout);
         ("day_boundary_crossed", JBool (WorkoutRecord.crossed_day_boundary workout)) ].

Definition daily_entry (day : date) (data : DailyAggregate.t) : json :=
  let workouts := workout_json <$> DailyAggregate.workouts data in
  dict [ ("date_utc", JStr (date_isoformat day));
         ("sleep",
          match DailyAggregate.sleep_hours data with
          | Some h =>
              dict [ ("hours", JFloat h);
                     ("quality_score",
                      match DailyAggregate.sleep_quality data with
                      | Some q => JInt q
                      | None => JNull
                      end) ]
          | None => JNull
          end);
         ("workouts", JArr workouts);
         ("daily_totals",
          dict [ ("total_calories", JInt (DailyAggregate.total_calories data));
                 ("total_workout_minutes",
                  JInt (DailyAggregate.total_workout_minutes data));
                 ("workout_count",
                  JInt (Z.of_nat (length (DailyAggregate.workouts data)))) ]) ].

(** [correlations.get(key, 0)]. *)
Definition get_or_0 (correlations : gmap string json) (key : string) : json :=
  default (JInt 0) (correlations !! key).

Definition generate_json_output (merged : gmap date DailyAggregate.t)
    (workout_records : list WorkoutRecord.t)
    (correlations : gmap string json) : result json :=
  let daily_list :=
    omap (λ day, daily_entry day <$> merged !! day) (sorted_keys merged) in
  let generated_at := JStr (isoformat now_utc) in
  let total_days := JInt (Z.of_nat (size merged)) in
  start ← min_date (dict_keys merged);
  end_ ← max_date (dict_keys merged);
  let low_count := get_or_0 correlations "low_sleep_day_count" in
  low_avg ← round_2 (get_or_0 correlations "avg_calories_low_sleep");
  let good_count := get_or_0 correlations "good_sleep_day_count" in
  good_avg ← round_2 (get_or_0 correlations "avg_calories_good_sleep");
  let crossings :=
    length (filter (λ w, WorkoutRecord.crossed_day_boundary w = true)
                   workout_records) in
  Return
    (dict [ ("metadata",
             dict [ ("generated_at", generated_at);
                    ("total_days", total_days);
                    ("date_range",
                     dict [ ("start", JStr (date_isoformat start));
                            ("end", JStr (date_isoformat end_)) ]) ]);
            ("daily_data", JArr daily_list);
            ("correlations",
             dict [ ("low_sleep_days",
                     dict [ ("count", low_count);
                            ("avg_calories_burned", low_avg) ]);
                    ("good_sleep_days",
                     dict [ ("count", good_count);
                            ("avg_calories_burned", good_avg) ]);
                    ("day_boundary_crossings", JInt (Z.of_nat crossings)) ]) ]).

End with_host.
End tool_reporter.

(** ** Part I.12  A small host, for the examples

    Enough of a runtime to run the program on concrete documents: three
    zones of the IANA database, and the canonical spellings of time stamps
    and numbers.  The theorems of part II hold for every host; this one
    only instantiates them. *)

Module sample_host.

Definition digit (c : Ascii.ascii) : option Z :=
  let n := Z.of_N (Ascii.N_of_ascii c) in
  if (48 <=? n) && (n <=? 57) then Some (n - 48) else None.

Fixpoint digits_go (s : string) (acc : Z) : option Z :=
  match s with
  | "" => Some acc
  | String c s' => d ← digit c; digits_go s' (10 * acc + d)
  end.

(** A non-empty run of ASCII digits. *)
Definition digits (s : string) : option Z :=
  match s with
  | "" => None
  | _ => digits_go s 0
  end.

Definition sub (n m : nat) (s : string) : string := String.substring n m s.

(** [YYYY-MM-DD?HH:MM:SS] with the separator [sep] between date and
    time. *)
Definition six_fields (sep : string) (s : string)
    : option (Z * Z * Z * Z * Z * Z) :=
  if bool_decide (String.length s = 19%nat ∧ sub 4 1 s = "-" ∧ sub 7 1 s = "-"
                  ∧ sub 10 1 s = sep ∧ sub 13 1 s = ":" ∧ sub 16 1 s = ":")
  then
    y ← digits (sub 0 4 s);
    m ← digits (sub 5 2 s);
    d ← digits (sub 8 2 s);
    hh ← digits (sub 11 2 s);
    mi ← digits (sub 14 2 s);
    ss ← digits (sub 17 2 s);
    Some (y, m, d, hh, mi, ss)
  else None.

Definition match_strptime (s : string) : option (Z * Z * Z * Z * Z * Z) :=
  six_fields " " s.

(** [+HH:MM] or [-HH:MM], in seconds. *)
Definition iso_offset (s : string) : option Z :=
  if bool_decide (String.length s = 6%nat ∧ sub 3 1 s = ":") then
    hh ← digits (sub 1 2 s);
    mi ← digits (sub 4 2 s);
    if bool_decide (sub 0 1 s = "+") then Some (hh * 3600 + mi * 60)
    else if bool_decide (sub 0 1 s = "-") then Some (- (hh * 3600 + mi * 60))
    else None
  else None.

(** [YYYY-MM-DDTHH:MM:SS], alone or followed by [+HH:MM] or [-HH:MM]. *)
Definition parse_iso (s : string) : option datetime :=
  '(y, m, d, hh, mi, ss) ← six_fields "T" (sub 0 19 s);
  dt ← datetime_new y m d hh mi ss;
  if bool_decide (String.length s = 19%nat) then Some dt
  else
    off ← iso_offset (sub 19 6 s);
    if bool_decide (String.length s = 25%nat) then
      Some (DateTime (dt_date dt) (hour dt) (minute dt) (second dt)
                     (microsecond dt) (Some off))
    else None.

Definition parse_int (s : string) : option Z :=
  match s with
  | String c s' =>
      if bool_decide (sub 0 1 s = "-") then Z.opp <$> digits s' else digits s
  | "" => None
  end.

Definition parse_float (s : string) : option pyfloat :=
  if bool_decide (s = "nan") then Some FNaN
  else if bool_decide (s = "inf") then Some (FInf false)
  else if bool_decide (s = "-inf") then Some (FInf true)
  else z ← parse_int s; float_of_int z.

Definition show_float (f : pyfloat) : string :=
  match f with
  | FNaN => "nan"
  | FInf neg => if neg then "-inf" else "inf"
  | FFin m e =>
      if e =? 0 then pretty m +:+ ".0" else pretty m +:+ "*2**" +:+ pretty e
  end.

(** The day of the month of the first Sunday on or after day [d]. *)
Definition sunday_from (y m d : Z) : Z :=
  d + (6 - weekday (Date y m d)) mod 7.

Definition wall_key (m d hh mi ss : Z) : Z :=
  (((m * 32 + d) * 24 + hh) * 60 + mi) * 60 + ss.

(** [America/Los_Angeles] under the rules in force since 2007: daylight
    time from the second Sunday of March to the first Sunday of
    November.  With [fold = 0] a wall time in the skipped hour keeps the
    standard offset and a repeated one takes its first occurrence. *)
Definition los_angeles (dt : datetime) : Z :=
  let y := year (dt_date dt) in
  let t := wall_key (month (dt_date dt)) (day (dt_date dt))
                    (hour dt) (minute dt) (second dt) in
  if (wall_key 3 (sunday_from y 3 8) 3 0 0 <=? t)
     && (t <? wall_key 11 (sunday_from y 11 1) 2 0 0)
  then -25200 else -28800.

Definition zones (key : string) : result tzinfo :=
  if bool_decide (key = "UTC") then Return (TzInfo (λ _, 0))
  else if bool_decide (key = "America/Los_Angeles") then Return (TzInfo los_angeles)
  else if bool_decide (key = "Asia/Tokyo") then Return (TzInfo (λ _, 32400))
  else raise ZoneInfoNotFoundError ("'No time zone found with key " +:+ key +:+ "'").

#[export] Instance host : Host := {|
  ZoneInfo := zones;
  strptime_match := match_strptime;
  fromisoformat := parse_iso;
  int_of_str := parse_int;
  float_of_str := parse_float;
  float_str := show_float;
  container_str := λ _, "[...]";
  runtime_msg := λ op _, "bad operand for " +:+ op;
  round2 := λ f, f;
  now_utc := DateTime (Date 2023 10 8) 12 0 0 0 (Some 0)
|}.

End sample_host.

(** ** Part I.13  Relations between outcomes *)

(** Two outcomes agree: the same value, or exceptions of the same class
    (their messages may differ). *)
Definition same_outcome {A} (x y : result A) : Prop :=
  match x, y with
  | Return a, Return b => a = b
  | Raise e, Raise e' => exn_type e = exn_type e'
  | _, _ => False
  end.

Definition same_handler {A} (h h' : exn → option (result A)) : Prop :=
  ∀ e, match h e, h' e with
       | Some r, Some r' => same_outcome r r'
       | None, None => True
       | _, _ => False
       end.

(** ** Part I.14  Example documents *)

Module examples.

Definition workout (id timestamp tz : string) (duration_min calories : Z)
    : gmap string json :=
  list_to_map
    [ ("id", JStr id); ("timestamp", JStr timestamp); ("tz", JStr tz);
      ("type", JStr "run"); ("duration_min", JInt duration_min);
      ("calories", JInt calories) ].

Definition sleep (sleep_start sleep_end : string) (duration_hours : json)
    (quality_score : Z) : json :=
  JObj (list_to_map
          [ ("sleep_start", JStr sleep_start); ("sleep_end", JStr sleep_end);
            ("duration_hours", duration_hours);
            ("quality_score", JInt quality_score) ]).

(** An evening run in Los Angeles and a morning run on UTC. *)
Definition evening_run : gmap string json :=
  workout "w1" "2023-10-01 23:15:00" "America/Los_Angeles" 45 400.
Definition morning_run : gmap string json :=
  workout "w2" "2023-10-02 08:30:00" "UTC" 30 250.

Definition workout_log : gmap string json :=
  {[ "workout_log" := JArr [JObj evening_run; JObj morning_run] ]}.
Definition workouts_doc : json := JObj workout_log.

(** A workout entry without [tz] and without [duration_min]. *)
Definition incomplete_run : gmap string json :=
  list_to_map [ ("id", JStr "w3"); ("timestamp", JStr "2023-10-03 07:00:00");
                ("type", JStr "run"); ("calories", JInt 100) ].

(** A short night ending on 2023-10-02, and an entry whose duration is
    the string [nan]. *)
Definition short_night : json :=
  sleep "2023-10-01T23:30:00Z" "2023-10-02T04:30:00Z" (JInt 5) 60.
Definition nan_night : json :=
  sleep "2023-10-02T22:00:00Z" "2023-10-03T06:00:00Z" (JStr "nan") 80.

Definition sleep_doc : json := JObj {[ "records" := JArr [short_night] ]}.
Definition nan_doc : json := JObj {[ "records" := JArr [nan_night] ]}.

Definition utc (y m d hh mi ss : Z) : datetime :=
  DateTime (Date y m d) hh mi ss 0 (Some 0).

Definition evening_record : WorkoutRecord.t :=
  WorkoutRecord.mk "w1" (utc 2023 10 2 6 15 0) (Date 2023 10 2)
    (JStr "2023-10-01 23:15:00") (JStr "America/Los_Angeles") "run" 45 400 true.
Definition morning_record : WorkoutRecord.t :=
  WorkoutRecord.mk "w2" (utc 2023 10 2 8 30 0) (Date 2023 10 2)
    (JStr "2023-10-02 08:30:00") (JStr "UTC") "run" 30 250 false.

Definition short_night_record : SleepRecord.t :=
  SleepRecord.mk (Date 2023 10 2) (utc 2023 10 1 23 30 0)
    (utc 2023 10 2 4 30 0) (FFin 5 0) 60.
Definition nan_night_record : SleepRecord.t :=
  SleepRecord.mk (Date 2023 10 3) (utc 2023 10 2 22 0 0)
    (utc 2023 10 3 6 0 0) FNaN 80.

Definition merged : gmap date DailyAggregate.t :=
  tool_merger.merge_by_day [short_night_record] [evening_record; morning_record].




End examples.

(** * Part II  Lemmas and theorems *)

(** ** Part II.1  The calendar: ordinals and dates *)

Ltac divmod_lia := Z.div_mod_to_equations; lia.

Lemma year_decompose (y : Z) :
  ∃ a b c e,
    y - 1 = 400 * a + 100 * b + 4 * c + e
    ∧ 0 <= b < 4 ∧ 0 <= c < 25 ∧ 0 <= e < 4
    ∧ days_before_year y = 146097 * a + 36524 * b + 1461 * c + 365 * e
    ∧ is_leap y = (e =? 3) && (negb (c =? 24) || (b =? 3)).
Proof.
  exists ((y - 1) / 400), ((y - 1) mod 400 / 100),
         ((y - 1) mod 100 / 4), ((y - 1) mod 4).
  unfold days_before_year, is_leap.
  split; [divmod_lia|]. split; [divmod_lia|]. split; [divmod_lia|].
  split; [divmod_lia|]. split; [divmod_lia|].
  destruct (Z.eqb_spec (y mod 4) 0), (Z.eqb_spec (y mod 100) 0),
    (Z.eqb_spec (y mod 400) 0), (Z.eqb_spec ((y - 1) mod 4) 3),
    (Z.eqb_spec ((y - 1) mod 100 / 4) 24),
    (Z.eqb_spec ((y - 1) mod 400 / 100) 3); simpl; try reflexivity;
    exfalso; divmod_lia.
Qed.

Lemma month_estimate (leap : bool) (y m d : Z) :
  1 <= m <= 12 →
  1 <= d <= (if (m =? 2) && leap then 29 else DAYS_IN_MONTH m) →
  let n := DAYS_BEFORE_MONTH m + (if (2 <? m) && leap then 1 else 0) + d - 1 in
  (let m := Z.shiftr (n + 50) 5 in
   let preceding :=
     DAYS_BEFORE_MONTH m + (if (2 <? m) && leap then 1 else 0) in
   if n <? preceding then
     let m := m - 1 in
     let preceding :=
       preceding - (DAYS_IN_MONTH m + (if (m =? 2) && leap then 1 else 0)) in
     Date y m (n - preceding + 1)
   else Date y m (n - preceding + 1)) = Date y m d.
Proof.
  intros Hm Hd.
  assert (Hcases : m = 1 ∨ m = 2 ∨ m = 3 ∨ m = 4 ∨ m = 5 ∨ m = 6 ∨ m = 7
                   ∨ m = 8 ∨ m = 9 ∨ m = 10 ∨ m = 11 ∨ m = 12) by lia.
  cbv zeta. rewrite Z.shiftr_div_pow2 by lia. change (2 ^ 5) with 32.
  destruct leap;
    repeat (destruct Hcases as [-> | Hcases]); try subst m; simpl in Hd |- *;
    match goal with
    | |- context [ (?c + d - 1 + 50) / 32 ] =>
        let q := fresh "q" in
        let Hq := fresh "Hq" in
        remember ((c + d - 1 + 50) / 32) as q eqn:Hq;
        assert (q = (c + 50) / 32 ∨ q = (c + 50) / 32 + 1)
          as [-> | ->] by (subst q; divmod_lia)
    end; simpl;
    match goal with
    | |- context [ ?a <? ?b ] => destruct (Z.ltb_spec a b)
    end; simpl; first [ f_equal; lia | exfalso; divmod_lia ].
Qed.

Lemma day_of_year_bounds (leap : bool) (m d : Z) :
  1 <= m <= 12 →
  1 <= d <= (if (m =? 2) && leap then 29 else DAYS_IN_MONTH m) →
  let n := DAYS_BEFORE_MONTH m + (if (2 <? m) && leap then 1 else 0) + d - 1 in
  0 <= n < 365 + (if leap then 1 else 0)
  ∧ (n = 365 → m = 12 ∧ d = 31).
Proof.
  intros Hm Hd.
  assert (Hcases : m = 1 ∨ m = 2 ∨ m = 3 ∨ m = 4 ∨ m = 5 ∨ m = 6 ∨ m = 7
                   ∨ m = 8 ∨ m = 9 ∨ m = 10 ∨ m = 11 ∨ m = 12) by lia.
  destruct leap;
    repeat (destruct Hcases as [-> | Hcases]); try subst m;
    simpl in Hd |- *; lia.
Qed.

Lemma ord2ymd_ymd2ord (y m d : Z) :
  1 <= m <= 12 → 1 <= d <= days_in_month y m →
  ord2ymd (ymd2ord y m d) = Date y m d.
Proof.
  intros Hm Hd.
  destruct (year_decompose y) as (a & b & c & e & Hy & Hb & Hc & He & Hdby & Hleap).
  unfold days_in_month in Hd.
  pose proof (day_of_year_bounds (is_leap y) m d Hm Hd) as [Hn Hlast].
  pose proof (month_estimate (is_leap y) y m d Hm Hd) as Htail.
  cbv zeta in Hn, Hlast, Htail.
  unfold ymd2ord, days_before_month. rewrite Hdby.
  remember (DAYS_BEFORE_MONTH m + (if (2 <? m) && is_leap y then 1 else 0) + d - 1)
    as n eqn:En.
  replace (146097 * a + 36524 * b + 1461 * c + 365 * e
           + (DAYS_BEFORE_MONTH m + (if (2 <? m) && is_leap y then 1 else 0)) + d)
    with (146097 * a + 36524 * b + 1461 * c + 365 * e + n + 1) by lia.
  unfold ord2ymd, DI400Y, DI100Y, DI4Y. cbv zeta.
  replace (146097 * a + 36524 * b + 1461 * c + 365 * e + n + 1 - 1)
    with (146097 * a + (36524 * b + 1461 * c + 365 * e + n)) by lia.
  assert (Hleap' : is_leap y = true → e = 3 ∧ (c ≠ 24 ∨ b = 3)).
  { rewrite Hleap. intros Hl. apply andb_prop in Hl as [H1 H2].
    apply Z.eqb_eq in H1. apply orb_prop in H2 as [H2 | H2].
    - apply negb_true_iff, Z.eqb_neq in H2. lia.
    - apply Z.eqb_eq in H2. lia. }
  assert (Hn365 : n < 365 ∨ (n = 365 ∧ e = 3 ∧ (c ≠ 24 ∨ b = 3))).
  { destruct (is_leap y); [destruct Hleap'; [done|]|]; lia. }
  assert (E1 : (146097 * a + (36524 * b + 1461 * c + 365 * e + n)) / 146097 = a)
    by divmod_lia.
  assert (E2 : (146097 * a + (36524 * b + 1461 * c + 365 * e + n)) mod 146097
               = 36524 * b + 1461 * c + 365 * e + n) by divmod_lia.
  rewrite E1, E2. clear E1 E2.
  destruct Hn365 as [Hlt | (-> & -> & Hcb)].
  - (* an ordinary day *)
    assert (E3 : (36524 * b + 1461 * c + 365 * e + n) / 36524 = b) by divmod_lia.
    assert (E4 : (36524 * b + 1461 * c + 365 * e + n) mod 36524
                 = 1461 * c + 365 * e + n) by divmod_lia.
    rewrite E3, E4. clear E3 E4.
    assert (E5 : (1461 * c + 365 * e + n) / 1461 = c) by divmod_lia.
    assert (E6 : (1461 * c + 365 * e + n) mod 1461 = 365 * e + n) by divmod_lia.
    rewrite E5, E6. clear E5 E6.
    assert (E7 : (365 * e + n) / 365 = e) by divmod_lia.
    assert (E8 : (365 * e + n) mod 365 = n) by divmod_lia.
    rewrite E7, E8. clear E7 E8.
    destruct (Z.eqb_spec e 4); [lia|]. destruct (Z.eqb_spec b 4); [lia|].
    simpl orb. cbv iota.
    rewrite <- Hleap.
    replace (a * 400 + 1 + b * 100 + c * 4 + e) with y by lia.
    exact Htail.
  - (* the last day of a leap year *)
    destruct (Hlast eq_refl) as [-> ->].
    destruct (decide (c = 24)) as [-> | Hc24].
    + assert (b = 3) as -> by lia. simpl. f_equal. divmod_lia.
    + assert (E3 : (36524 * b + 1461 * c + 365 * 3 + 365) / 36524 = b) by divmod_lia.
      assert (E4 : (36524 * b + 1461 * c + 365 * 3 + 365) mod 36524
                   = 1461 * c + 1460) by divmod_lia.
      rewrite E3, E4. clear E3 E4.
      assert (E5 : (1461 * c + 1460) / 1461 = c) by divmod_lia.
      assert (E6 : (1461 * c + 1460) mod 1461 = 1460) by divmod_lia.
      rewrite E5, E6. clear E5 E6. simpl. f_equal. divmod_lia.
Qed.

Lemma ymd2ord_range (y m d : Z) :
  check_date_fields y m d = true → 0 < ymd2ord y m d <= MAXORDINAL.
Proof.
  unfold check_date_fields, MINYEAR, MAXYEAR, MAXORDINAL.
  intros Hc. repeat (apply andb_prop in Hc as [Hc ?]).
  assert (Hm : 1 <= m <= 12) by lia.
  assert (Hd : 1 <= d <= days_in_month y m) by lia.
  unfold days_in_month in Hd.
  pose proof (day_of_year_bounds (is_leap y) m d Hm Hd) as [Hn _].
  cbv zeta in Hn. unfold ymd2ord, days_before_month, days_before_year.
  assert (1 <= y <= 9999) by lia.
  destruct (is_leap y) eqn:El; [|divmod_lia].
  destruct (decide (y = 9999)) as [-> | ?]; [discriminate El|].
  divmod_lia.
Qed.

Lemma datetime_new_Some (y m d hh mi ss : Z) (dt : datetime) :
  datetime_new y m d hh mi ss = Some dt →
  dt = DateTime (Date y m d) hh mi ss 0 None
  ∧ check_date_fields y m d = true
  ∧ 0 <= hh <= 23 ∧ 0 <= mi <= 59 ∧ 0 <= ss <= 59.
Proof.
  unfold datetime_new, check_time_fields. intros Hnew.
  destruct (check_date_fields y m d) eqn:Hdate; [|discriminate].
  simpl in Hnew.
  match type of Hnew with (if ?c then _ else _) = _ => destruct c eqn:Ht end;
    [|discriminate].
  injection Hnew as <-. repeat (apply andb_prop in Ht as [Ht ?]).
  repeat split; lia.
Qed.

(** Subtracting a zero offset gives the wall time back: the date goes to
    its ordinal and returns unchanged. *)
Lemma sub_seconds_zero (y m d hh mi ss : Z) (dt : datetime) :
  datetime_new y m d hh mi ss = Some dt → sub_seconds dt 0 = Some dt.
Proof.
  intros Hnew. apply datetime_new_Some in Hnew as (-> & Hdate & Hh & Hm & Hs).
  pose proof (ymd2ord_range y m d Hdate) as Hord.
  unfold sub_seconds, toordinal. simpl.
  assert (Hfields : 1 <= m <= 12 ∧ 1 <= d <= days_in_month y m).
  { unfold check_date_fields in Hdate.
    repeat (apply andb_prop in Hdate as [Hdate ?]). lia. }
  set (o := ymd2ord y m d) in *.
  assert (E1 : (o * 86400 + hh * 3600 + mi * 60 + ss - 0) / 86400 = o)
    by divmod_lia.
  assert (E2 : (o * 86400 + hh * 3600 + mi * 60 + ss - 0) mod 86400
               = hh * 3600 + mi * 60 + ss) by divmod_lia.
  rewrite E1, E2.
  assert (E3 : (hh * 3600 + mi * 60 + ss) / 3600 = hh) by divmod_lia.
  assert (E4 : (hh * 3600 + mi * 60 + ss) mod 3600 = mi * 60 + ss) by divmod_lia.
  rewrite E3, E4.
  assert (E5 : (mi * 60 + ss) / 60 = mi) by divmod_lia.
  assert (E6 : (mi * 60 + ss) mod 60 = ss) by divmod_lia.
  rewrite E5, E6.
  destruct (Z.ltb_spec 0 o); [|lia].
  destruct (Z.leb_spec o MAXORDINAL); [|lia].
  simpl. subst o. rewrite ord2ymd_ymd2ord by lia. reflexivity.
Qed.

(** ** Part II.2  Outcomes, handlers and the loader loops *)

Section outcome.
Context {A B : Type}.

Lemma same_outcome_refl (x : result A) : same_outcome x x.
Proof. by destruct x. Qed.

Lemma same_outcome_raise (c : exn_class) (m m' : string) :
  same_outcome (raise (A:=A) c m) (raise c m').
Proof. reflexivity. Qed.

Lemma same_outcome_bind (x y : result A) (k k' : A → result B) :
  same_outcome x y → (∀ a, same_outcome (k a) (k' a)) →
  same_outcome (x ≫= k) (y ≫= k').
Proof. destruct x, y; simpl; try done. intros ->. auto. Qed.

Lemma same_outcome_try_except (x : result A) (h h' : exn → option (result A)) :
  same_handler h h' → same_outcome (try_except x h) (try_except x h').
Proof.
  intros Hh. destruct x as [e|a]; simpl; [|done].
  specialize (Hh e). destruct (h e), (h' e); try done.
Qed.

Lemma same_outcome_if (b : bool) (x x' y y' : result A) :
  same_outcome x x' → same_outcome y y' →
  same_outcome (if b then x else y) (if b then x' else y').
Proof. by destruct b. Qed.

Lemma same_handler_reraise (l : list exn_class) (r r' : exn → result A) :
  (∀ e, same_outcome (r e) (r' e)) →
  same_handler (λ e, if catches l e then Some (r e) else None)
               (λ e, if catches l e then Some (r' e) else None).
Proof. intros Hr e. destruct (catches l e); [apply Hr|done]. Qed.
End outcome.

Section loader_lemmas.
Context `{Host}.

Lemma validate_workout_same (idx idx' : nat) (entry : json) :
  same_outcome (tool_data_loader.validate_workout_entry entry idx)
               (data_loader.validate_workout_entry entry idx').
Proof.
  unfold tool_data_loader.validate_workout_entry,
    data_loader.validate_workout_entry, data_loader.WORKOUT_REQUIRED_FIELDS.
  apply same_outcome_bind; [apply same_outcome_refl|]. intros ks.
  apply same_outcome_if; [apply same_outcome_raise|apply same_outcome_refl].
Qed.

Lemma workout_entry_same_outcome (idx idx' : nat) (entry : json) :
  same_outcome (tool_data_loader.workout_entry idx entry)
               (data_loader.workout_entry idx' entry).
Proof.
  unfold tool_data_loader.workout_entry, data_loader.workout_entry.
  apply same_outcome_bind; [apply validate_workout_same|]. intros _.
  apply same_outcome_bind.
  { apply same_outcome_try_except. intros e.
    destruct (catches [ZoneInfoNotFoundError] e).
    - apply same_outcome_bind; [apply same_outcome_refl|].
      intros a. apply same_outcome_raise.
    - destruct (catches [KeyError] e); [apply same_outcome_raise|done]. }
  intros local_tz. apply same_outcome_bind.
  { apply same_outcome_try_except, same_handler_reraise.
    intros e. apply same_outcome_raise. }
  intros local_dt. apply same_outcome_bind; [apply same_outcome_refl|].
  intros utc_dt. apply same_outcome_bind.
  { apply same_outcome_try_except, same_handler_reraise.
    intros e. apply same_outcome_raise. }
  intros [duration_min calories]. apply same_outcome_refl.
Qed.

Lemma catches_class (cs : list exn_class) (e e' : exn) :
  exn_type e = exn_type e' → catches cs e = catches cs e'.
Proof. unfold catches. by intros ->. Qed.

Lemma bind_Return {A B} (x : result A) (k : A → result B) (b : B) :
  x ≫= k = Return b → ∃ a, x = Return a ∧ k a = Return b.
Proof. destruct x as [e|a]; [done|]. eauto. Qed.

(** A handler that only re-raises lets no value through. *)
Lemma try_except_Return {A} (x : result A) (h : exn → option (result A)) (a : A) :
  (∀ e r, h e = Some r → ∃ e', r = Raise e') →
  try_except x h = Return a → x = Return a.
Proof.
  intros Hh. destruct x as [e|a']; simpl; [|done].
  destruct (h e) as [r|] eqn:Hr; [|done].
  destruct (Hh e r Hr) as [e' ->]. done.
Qed.

Lemma reraise_handler {A} (cs : list exn_class) (c : exn_class)
    (msg : exn → string) (e : exn) (r : result A) :
  (if catches cs e then Some (raise c (msg e)) else None) = Some r →
  ∃ e', r = Raise e'.
Proof. destruct (catches cs e); [|done]. intros [= <-]. eauto. Qed.

Lemma for_enumerate_cons {St} (body : nat → json → St → result St)
    (idx : nat) (x : json) (l : list json) (st : St) :
  for_enumerate body idx (x :: l) st
  = body idx x st ≫= for_enumerate body (S idx) l.
Proof. reflexivity. Qed.

Section skip_loop.
Context {R : Type} (f : nat → json → result R) (cs : list exn_class).

Lemma skip_and_warn_cases (idx : nat) (entry : json) recs sk :
  match f idx entry with
  | Return r =>
      skip_and_warn f cs idx entry (recs, sk) = Return (recs ++ [r], sk)
  | Raise e =>
      if catches cs e
      then skip_and_warn f cs idx entry (recs, sk)
           = Return (recs, sk ++ [(idx, exn_str e)])
      else skip_and_warn f cs idx entry (recs, sk) = Raise e
  end.
Proof.
  unfold skip_and_warn. destruct (f idx entry) as [e|r]; simpl; [|done].
  by destruct (catches cs e).
Qed.

Lemma skip_loop_Return (l : list json) (idx : nat) recs sk rs sk' :
  for_enumerate (skip_and_warn f cs) idx l (recs, sk) = Return (rs, sk') →
  ∃ rs' sk'',
    rs = recs ++ rs' ∧ sk' = sk ++ sk''
    ∧ (∀ r, r ∈ rs' →
         ∃ i entry, l !! i = Some entry ∧ f (idx + i)%nat entry = Return r)
    ∧ (sk'' = [] →
         Forall2 (λ ie r, f ie.1 ie.2 = Return r)
                 (zip (seq idx (length l)) l) rs').
Proof.
  revert idx recs sk. induction l as [|entry l IH]; intros idx recs sk Hloop.
  - injection Hloop as <- <-. exists [], [].
    rewrite !app_nil_r. repeat split; [|constructor].
    intros r Hr. by apply elem_of_nil in Hr.
  - rewrite for_enumerate_cons in Hloop.
    apply bind_Return in Hloop as ([recs1 sk1] & Hb & Hloop).
    apply IH in Hloop as (rs' & sk'' & -> & -> & Hin & Hall).
    pose proof (skip_and_warn_cases idx entry recs sk) as Hcase.
    destruct (f idx entry) as [e|r] eqn:Hf.
    + destruct (catches cs e); rewrite Hcase in Hb; [|done].
      injection Hb as <- <-.
      exists rs', ((idx, exn_str e) :: sk'').
      split; [done|]. split; [by rewrite <- app_assoc|].
      split; [|done]. intros r Hr.
      destruct (Hin r Hr) as (i & en & Hl & Hfi).
      exists (S i), en. split; [done|].
      by replace (idx + S i)%nat with (S idx + i)%nat by lia.
    + rewrite Hcase in Hb. injection Hb as <- <-.
      exists (r :: rs'), sk''.
      split; [by rewrite <- app_assoc|]. split; [done|]. split.
      * intros r' [-> | Hr]%elem_of_cons.
        -- exists 0%nat, entry. split; [done|].
           by replace (idx + 0)%nat with idx by lia.
        -- destruct (Hin r' Hr) as (i & en & Hl & Hfi).
           exists (S i), en. split; [done|].
           by replace (idx + S i)%nat with (S idx + i)%nat by lia.
      * intros Hnil. simpl. constructor; [done|]. by apply Hall.
Qed.

(** The fail-fast loop over the same entries, for an entry function
    [g] that agrees with [f]. *)
Context (g : nat → json → result R) (what : string).
Context (Hfg : ∀ idx entry, same_outcome (f idx entry) (g idx entry)).

Lemma fail_fast_cases (idx : nat) (entry : json) recs :
  match g idx entry with
  | Return r => fail_fast g cs what idx entry recs = Return (recs ++ [r])
  | Raise e =>
      if catches cs e
      then ∃ e', fail_fast g cs what idx entry recs = Raise e'
                 ∧ exn_type e' = ValueError
      else fail_fast g cs what idx entry recs = Raise e
  end.
Proof.
  unfold fail_fast. destruct (g idx entry) as [e|r]; simpl; [|done].
  destruct (catches cs e); [|done]. eauto.
Qed.

Lemma loops_agree (l : list json) (idx : nat) recs sk rs :
  for_enumerate (fail_fast g cs what) idx l recs = Return rs
  ↔ for_enumerate (skip_and_warn f cs) idx l (recs, sk) = Return (rs, sk).
Proof.
  revert idx recs. induction l as [|entry l IH]; intros idx recs.
  - simpl. split; intros [= ->]; done.
  - rewrite !for_enumerate_cons.
    pose proof (skip_and_warn_cases idx entry recs sk) as Hcase.
    pose proof (fail_fast_cases idx entry recs) as Hcase'.
    pose proof (Hfg idx entry) as Hsame.
    destruct (f idx entry) as [e|r], (g idx entry) as [e'|r'];
      simpl in Hsame; try done.
    + rewrite (catches_class cs e e' Hsame) in Hcase.
      destruct (catches cs e') eqn:Hc.
      * destruct Hcase' as (e'' & -> & _). rewrite Hcase. simpl.
        split; [done|]. intros Hloop.
        apply skip_loop_Return in Hloop as (rs' & sk'' & _ & Hsk & _).
        rewrite <- app_assoc in Hsk. apply (f_equal length) in Hsk.
        rewrite length_app in Hsk. simpl in Hsk. lia.
      * rewrite Hcase, Hcase'. done.
    + subst r'. rewrite Hcase, Hcase'. simpl. apply IH.
Qed.

Lemma loops_all_valid (l : list json) (idx : nat) recs sk :
  (∀ i entry, l !! i = Some entry → ∃ r, f (idx + i)%nat entry = Return r) →
  ∃ rs, for_enumerate (skip_and_warn f cs) idx l (recs, sk) = Return (rs, sk).
Proof.
  revert idx recs. induction l as [|entry l IH]; intros idx recs Hall.
  - by exists recs.
  - rewrite for_enumerate_cons.
    pose proof (skip_and_warn_cases idx entry recs sk) as Hcase.
    destruct (Hall 0%nat entry eq_refl) as [r Hr].
    replace (idx + 0)%nat with idx in Hr by lia.
    rewrite Hr in Hcase. rewrite Hcase. simpl. apply IH.
    intros i en Hl. destruct (Hall (S i) en Hl) as [r' Hr'].
    exists r'. by replace (S idx + i)%nat with (idx + S i)%nat by lia.
Qed.
End skip_loop.

Lemma workout_loaders_agree (data : json) (rs : list WorkoutRecord.t) :
  data_loader.load_workout_data data = Return rs
  ↔ tool_data_loader.load_workout_data data = Return (rs, []).
Proof.
  unfold data_loader.load_workout_data, tool_data_loader.load_workout_data.
  destruct (contains data "workout_log") as [e|present]; simpl; [done|].
  destruct present; simpl; [|done].
  destruct (getitem data "workout_log") as [e|log]; simpl; [done|].
  destruct log; try done.
  apply loops_agree. intros idx entry. apply workout_entry_same_outcome.
Qed.

Lemma load_workout_data_Return (data : json) rs sk :
  tool_data_loader.load_workout_data data = Return (rs, sk) →
  ∃ l, getitem data "workout_log" = Return (JArr l)
       ∧ for_enumerate
           (skip_and_warn tool_data_loader.workout_entry
              [KeyError; ValueError; ZoneInfoNotFoundError; TypeError])
           0%nat l ([], []) = Return (rs, sk).
Proof.
  unfold tool_data_loader.load_workout_data.
  destruct (contains data "workout_log") as [e|present]; simpl; [done|].
  destruct present; simpl; [|done].
  destruct (getitem data "workout_log") as [e|log]; simpl; [done|].
  destruct log; try done. eauto.
Qed.

Lemma load_workout_data_unfold (m : gmap string json) (l : list json) :
  m !! "workout_log" = Some (JArr l) →
  tool_data_loader.load_workout_data (JObj m)
  = for_enumerate
      (skip_and_warn tool_data_loader.workout_entry
         [KeyError; ValueError; ZoneInfoNotFoundError; TypeError])
      0%nat l ([], []).
Proof.
  intros Hm. unfold tool_data_loader.load_workout_data. simpl.
  rewrite bool_decide_eq_true_2 by (apply elem_of_dom; eauto).
  simpl. by rewrite Hm.
Qed.
End loader_lemmas.

(** C3.  The fail-fast and the skip-and-warn workout loaders normalise
    alike: an entry gives a record in one exactly when it gives the same
    record in the other (whatever the index used in messages); the
    fail-fast loader returns a list exactly when the skip-and-warn loader
    returns that list and skips nothing; and on a document all of whose
    entries are valid both return the same list. *)
Theorem C3_loaders_agree `{Host} (data : json) :
  (∀ idx idx' entry r,
     tool_data_loader.workout_entry idx entry = Return r
     ↔ data_loader.workout_entry idx' entry = Return r)
  ∧ (∀ rs, data_loader.load_workout_data data = Return rs
           ↔ tool_data_loader.load_workout_data data = Return (rs, []))
  ∧ (∀ m l,
       data = JObj m → m !! "workout_log" = Some (JArr l) →
       (∀ i entry, l !! i = Some entry →
                   ∃ r, tool_data_loader.workout_entry i entry = Return r) →
       ∃ rs, data_loader.load_workout_data data = Return rs
             ∧ tool_data_loader.load_workout_data data = Return (rs, [])).
Proof.
  split; [|split].
  - intros idx idx' entry r.
    pose proof (workout_entry_same_outcome idx idx' entry) as Hsame.
    destruct (tool_data_loader.workout_entry idx entry),
      (data_loader.workout_entry idx' entry); simpl in Hsame; try done.
    by subst.
  - apply workout_loaders_agree.
  - intros m l -> Hm Hvalid.
    destruct (loops_all_valid tool_data_loader.workout_entry
                [KeyError; ValueError; ZoneInfoNotFoundError; TypeError]
                l 0 [] [] Hvalid) as [rs Hrs].
    exists rs. rewrite workout_loaders_agree.
    by rewrite (load_workout_data_unfold m l Hm).
Qed.

(** ** Part II.3  What an accepted entry went through *)

Ltac solve_reraise :=
  let e := fresh "e" in
  let r := fresh "r" in
  intros e r; destruct (catches _ e); [intros [= <-]; eexists; reflexivity | done].

Section entries.
Context `{Host}.

Lemma tool_workout_entry_Return (idx : nat) (entry : json) (r : WorkoutRecord.t) :
  tool_data_loader.workout_entry idx entry = Return r →
  ∃ local_tz local_dt idv typev dmv calv,
    tool_data_loader.validate_workout_entry entry idx = Return ()
    ∧ getitem entry "tz" = Return (WorkoutRecord.original_timezone r)
    ∧ ZoneInfo_call (WorkoutRecord.original_timezone r) = Return local_tz
    ∧ getitem entry "timestamp" = Return (WorkoutRecord.original_timestamp r)
    ∧ strptime (WorkoutRecord.original_timestamp r) = Return local_dt
    ∧ astimezone_utc local_tz local_dt = Return (WorkoutRecord.timestamp_utc r)
    ∧ WorkoutRecord.date_utc r = date_of (WorkoutRecord.timestamp_utc r)
    ∧ WorkoutRecord.crossed_day_boundary r
      = bool_decide (date_of local_dt ≠ date_of (WorkoutRecord.timestamp_utc r))
    ∧ getitem entry "duration_min" = Return dmv
    ∧ int dmv = Return (WorkoutRecord.duration_min r)
    ∧ getitem entry "calories" = Return calv
    ∧ int calv = Return (WorkoutRecord.calories r)
    ∧ 0 <= WorkoutRecord.duration_min r <= 1440
    ∧ 0 <= WorkoutRecord.calories r
    ∧ getitem entry "id" = Return idv ∧ WorkoutRecord.id r = str idv
    ∧ getitem entry "type" = Return typev
    ∧ WorkoutRecord.workout_type r = str typev.
Proof.
  unfold tool_data_loader.workout_entry. intros Hrun.
  apply bind_Return in Hrun as ([] & Hval & Hrun).
  apply bind_Return in Hrun as (local_tz & Htz & Hrun).
  apply try_except_Return in Htz.
  2:{ intros e r0. destruct (catches [ZoneInfoNotFoundError] e).
      - intros [= <-]. destruct (getitem entry "tz"); simpl; eauto.
      - destruct (catches [KeyError] e); [|done]. intros [= <-]. eauto. }
  apply bind_Return in Htz as (tzv & Hgtz & Htz).
  apply bind_Return in Hrun as (local_dt & Hts & Hrun).
  apply try_except_Return in Hts; [|solve_reraise].
  apply bind_Return in Hts as (tsv & Hgts & Hts).
  apply bind_Return in Hrun as (utc_dt & Hutc & Hrun).
  apply bind_Return in Hrun as ([duration_min calories] & Hnum & Hrun).
  apply try_except_Return in Hnum; [|solve_reraise].
  apply bind_Return in Hnum as (dmv & Hgdm & Hnum).
  apply bind_Return in Hnum as (dm & Hdm & Hnum).
  apply bind_Return in Hnum as (calv & Hgcal & Hnum).
  apply bind_Return in Hnum as (cal & Hcal & Hnum).
  destruct (Z.ltb_spec dm 0); [done|].
  destruct (Z.ltb_spec 1440 dm); [done|]. simpl in Hnum.
  destruct (Z.ltb_spec cal 0); [done|].
  injection Hnum as -> ->.
  apply bind_Return in Hrun as (idv & Hid & Hrun).
  apply bind_Return in Hrun as (tsv' & Hgts' & Hrun).
  apply bind_Return in Hrun as (tzv' & Hgtz' & Hrun).
  apply bind_Return in Hrun as (typev & Htype & Hrun).
  injection Hrun as <-. simpl.
  rewrite Hgts in Hgts'. injection Hgts' as <-.
  rewrite Hgtz in Hgtz'. injection Hgtz' as <-.
  exists local_tz, local_dt, idv, typev, dmv, calv.
  repeat split; try done; lia.
Qed.

Lemma replace_Z_method_Return (x : json) (s : string) :
  replace_Z_method x = Return s → ∃ a, x = JStr a ∧ s = replace_Z a.
Proof. destruct x; try done. intros [= <-]. eauto. Qed.

Lemma fromisoformat_call_Return (s : string) (dt : datetime) :
  fromisoformat_call s = Return dt → fromisoformat s = Some dt.
Proof.
  unfold fromisoformat_call. destruct (fromisoformat s); [|done].
  by intros [= <-].
Qed.

Lemma tool_sleep_entry_Return (idx : nat) (entry : json) (r : SleepRecord.t) :
  tool_data_loader.sleep_entry idx entry = Return r →
  ∃ a b dhv qsv,
    tool_data_loader.validate_sleep_entry entry idx = Return ()
    ∧ getitem entry "sleep_start" = Return (JStr a)
    ∧ fromisoformat (replace_Z a) = Some (SleepRecord.sleep_start_utc r)
    ∧ getitem entry "sleep_end" = Return (JStr b)
    ∧ fromisoformat (replace_Z b) = Some (SleepRecord.sleep_end_utc r)
    ∧ getitem entry "duration_hours" = Return dhv
    ∧ float dhv = Return (SleepRecord.duration_hours r)
    ∧ getitem entry "quality_score" = Return qsv
    ∧ int qsv = Return (SleepRecord.quality_score r)
    ∧ float_lt_int (SleepRecord.duration_hours r) 0 = false
    ∧ float_gt_int (SleepRecord.duration_hours r) 24 = false
    ∧ 0 <= SleepRecord.quality_score r <= 100
    ∧ SleepRecord.date_utc r = date_of (SleepRecord.sleep_end_utc r).
Proof.
  unfold tool_data_loader.sleep_entry. intros Hrun.
  apply bind_Return in Hrun as ([] & Hval & Hrun).
  apply bind_Return in Hrun as ([sleep_start sleep_end] & Hts & Hrun).
  apply try_except_Return in Hts; [|solve_reraise].
  apply bind_Return in Hts as (av & Hga & Hts).
  apply bind_Return in Hts as (a' & Ha' & Hts).
  apply replace_Z_method_Return in Ha' as (a & -> & ->).
  apply bind_Return in Hts as (dt1 & Hdt1 & Hts).
  apply fromisoformat_call_Return in Hdt1.
  apply bind_Return in Hts as (bv & Hgb & Hts).
  apply bind_Return in Hts as (b' & Hb' & Hts).
  apply replace_Z_method_Return in Hb' as (b & -> & ->).
  apply bind_Return in Hts as (dt2 & Hdt2 & Hts).
  apply fromisoformat_call_Return in Hdt2.
  injection Hts as -> ->.
  apply bind_Return in Hrun as ([duration_hours quality_score] & Hnum & Hrun).
  apply try_except_Return in Hnum; [|solve_reraise].
  apply bind_Return in Hnum as (dhv & Hgdh & Hnum).
  apply bind_Return in Hnum as (dh & Hdh & Hnum).
  apply bind_Return in Hnum as (qsv & Hgqs & Hnum).
  apply bind_Return in Hnum as (qs & Hqs & Hnum).
  destruct (float_lt_int dh 0) eqn:Hlo; [done|].
  destruct (float_gt_int dh 24) eqn:Hhi; [done|]. simpl in Hnum.
  destruct (Z.ltb_spec qs 0); [done|].
  destruct (Z.ltb_spec 100 qs); [done|].
  injection Hnum as -> ->. injection Hrun as <-. simpl.
  exists a, b, dhv, qsv. repeat split; try done; lia.
Qed.

Lemma load_sleep_data_Return (data : json) rs sk :
  tool_data_loader.load_sleep_data data = Return (rs, sk) →
  ∃ l, getitem data "records" = Return (JArr l)
       ∧ for_enumerate
           (skip_and_warn tool_data_loader.sleep_entry
              [KeyError; ValueError; TypeError])
           0%nat l ([], []) = Return (rs, sk).
Proof.
  unfold tool_data_loader.load_sleep_data.
  destruct (contains data "records") as [e|present]; simpl; [done|].
  destruct present; simpl; [|done].
  destruct (getitem data "records") as [e|log]; simpl; [done|].
  destruct log; try done. eauto.
Qed.

(** Every record the skip-and-warn loaders return is the record of an
    entry of the document. *)
Lemma loaded_workout_from_entry (data : json) rs sk (r : WorkoutRecord.t) :
  tool_data_loader.load_workout_data data = Return (rs, sk) → r ∈ rs →
  ∃ l i entry,
    getitem data "workout_log" = Return (JArr l) ∧ l !! i = Some entry
    ∧ tool_data_loader.workout_entry i entry = Return r.
Proof.
  intros (l & Hl & Hloop)%load_workout_data_Return Hr.
  apply skip_loop_Return in Hloop as (rs' & sk'' & -> & _ & Hin & _).
  destruct (Hin r Hr) as (i & entry & Hi & Hentry). eauto 6.
Qed.

Lemma loaded_sleep_from_entry (data : json) rs sk (r : SleepRecord.t) :
  tool_data_loader.load_sleep_data data = Return (rs, sk) → r ∈ rs →
  ∃ l i entry,
    getitem data "records" = Return (JArr l) ∧ l !! i = Some entry
    ∧ tool_data_loader.sleep_entry i entry = Return r.
Proof.
  intros (l & Hl & Hloop)%load_sleep_data_Return Hr.
  apply skip_loop_Return in Hloop as (rs' & sk'' & -> & _ & Hin & _).
  destruct (Hin r Hr) as (i & entry & Hi & Hentry). eauto 6.
Qed.
End entries.

(** C1.  Every record of [load_workout_data] comes from a wall time that
    [strptime] read from the stored time stamp and a zone that the stored
    identifier resolves to; its [timestamp_utc] is that wall time taken to
    UTC through the zone, [crossed_day_boundary] holds exactly when the
    date of the wall time differs from the date of [timestamp_utc], and
    [date_utc] is the date of [timestamp_utc].  On a host where
    America/Los_Angeles is seven hours behind UTC at 2023-10-01 23:15:00,
    an accepted entry with that wall time and zone has UTC time
    2023-10-02 06:15:00, the flag set and the date 2023-10-02. *)
Theorem C1_day_boundary `{Host} :
  (∀ data rs sk r,
     tool_data_loader.load_workout_data data = Return (rs, sk) → r ∈ rs →
     ∃ local_tz local_dt,
       ZoneInfo_call (WorkoutRecord.original_timezone r) = Return local_tz
       ∧ strptime (WorkoutRecord.original_timestamp r) = Return local_dt
       ∧ astimezone_utc local_tz local_dt = Return (WorkoutRecord.timestamp_utc r)
       ∧ (WorkoutRecord.crossed_day_boundary r = true
          ↔ date_of local_dt ≠ date_of (WorkoutRecord.timestamp_utc r))
       ∧ WorkoutRecord.date_utc r = date_of (WorkoutRecord.timestamp_utc r))
  ∧ (∀ tz m idx r,
       strptime_match "2023-10-01 23:15:00" = Some (2023, 10, 1, 23, 15, 0) →
       ZoneInfo "America/Los_Angeles" = Return tz →
       utcoffset tz (DateTime (Date 2023 10 1) 23 15 0 0 None) = -25200 →
       m !! "timestamp" = Some (JStr "2023-10-01 23:15:00") →
       m !! "tz" = Some (JStr "America/Los_Angeles") →
       tool_data_loader.workout_entry idx (JObj m) = Return r →
       WorkoutRecord.timestamp_utc r = DateTime (Date 2023 10 2) 6 15 0 0 (Some 0)
       ∧ WorkoutRecord.crossed_day_boundary r = true
       ∧ WorkoutRecord.date_utc r = Date 2023 10 2).
Proof.
  split.
  - intros data rs sk r Hload Hr.
    destruct (loaded_workout_from_entry data rs sk r Hload Hr)
      as (l & i & entry & _ & _ & Hentry).
    apply tool_workout_entry_Return in Hentry
      as (local_tz & local_dt & idv & typev & dmv & calv & _ & _ & Htz & _
          & Hts & Hutc & Hdate & Hcross & _).
    exists local_tz, local_dt. rewrite Hcross, bool_decide_eq_true. done.
  - intros tz m idx r Hmatch Hzone Hoff Hmts Hmtz Hentry.
    apply tool_workout_entry_Return in Hentry
      as (local_tz & local_dt & idv & typev & dmv & calv & _ & Hgtz & Htz & Hgts
          & Hts & Hutc & Hdate & Hcross & _).
    simpl in Hgtz, Hgts. rewrite Hmtz in Hgtz. rewrite Hmts in Hgts.
    injection Hgtz as Hgtz. injection Hgts as Hgts.
    rewrite <- Hgtz in Htz. rewrite <- Hgts in Hts.
    simpl in Htz. rewrite Hzone in Htz. injection Htz as <-.
    simpl in Hts. rewrite Hmatch in Hts.
    change (datetime_new 2023 10 1 23 15 0)
      with (Some (DateTime (Date 2023 10 1) 23 15 0 0 None)) in Hts.
    injection Hts as <-.
    unfold astimezone_utc in Hutc. rewrite Hoff in Hutc.
    change (sub_seconds (DateTime (Date 2023 10 1) 23 15 0 0 None) (-25200))
      with (Some (DateTime (Date 2023 10 2) 6 15 0 0 None)) in Hutc.
    injection Hutc as Hutc. simpl in Hutc.
    rewrite Hdate, Hcross, <- Hutc. done.
Qed.

(** C2.  Every record of [load_sleep_data] comes from an entry of the
    document whose [sleep_start] and [sleep_end] texts [fromisoformat]
    read (after [Z] is replaced by [+00:00]); its [date_utc] is the date
    of the parsed [sleep_end], and so differs from the date of the parsed
    [sleep_start] whenever the two dates differ. *)
Theorem C2_sleep_date `{Host} (data : json) rs sk (r : SleepRecord.t) :
  tool_data_loader.load_sleep_data data = Return (rs, sk) → r ∈ rs →
  SleepRecord.date_utc r = date_of (SleepRecord.sleep_end_utc r)
  ∧ (date_of (SleepRecord.sleep_start_utc r) ≠ date_of (SleepRecord.sleep_end_utc r) →
     SleepRecord.date_utc r ≠ date_of (SleepRecord.sleep_start_utc r))
  ∧ ∃ l i entry a b,
      getitem data "records" = Return (JArr l) ∧ l !! i = Some entry
      ∧ getitem entry "sleep_start" = Return (JStr a)
      ∧ fromisoformat (replace_Z a) = Some (SleepRecord.sleep_start_utc r)
      ∧ getitem entry "sleep_end" = Return (JStr b)
      ∧ fromisoformat (replace_Z b) = Some (SleepRecord.sleep_end_utc r).
Proof.
  intros Hload Hr.
  destruct (loaded_sleep_from_entry data rs sk r Hload Hr)
    as (l & i & entry & Hl & Hi & Hentry).
  apply tool_sleep_entry_Return in Hentry
    as (a & b & dhv & qsv & _ & Ha & Hstart & Hb & Hend & _ & _ & _ & _ & _
        & _ & _ & Hdate).
  split; [done|]. split; [rewrite Hdate; congruence|].
  exists l, i, entry, a, b. done.
Qed.

(** ** Part II.4  The merger *)

Section merger.
Import tool_merger.

Lemma sum_Z_app (l1 l2 : list Z) : sum_Z (l1 ++ l2) = sum_Z l1 + sum_Z l2.
Proof. unfold sum_Z. induction l1 as [|y l1 IH]; simpl; lia. Qed.

Lemma on_day_on_day (day : date) (f g : DailyAggregate.t → DailyAggregate.t)
    (m : gmap date DailyAggregate.t) :
  on_day day f (on_day day g m) = on_day day (f ∘ g) m.
Proof.
  unfold on_day. by rewrite lookup_insert_eq, insert_insert_eq.
Qed.

Lemma lookup_on_day (day day' : date) (f : DailyAggregate.t → DailyAggregate.t)
    (m : gmap date DailyAggregate.t) :
  on_day day f m !! day'
  = if decide (day = day')
    then Some (f (default DailyAggregate.init (m !! day)))
    else m !! day'.
Proof. unfold on_day. by rewrite lookup_insert. Qed.

Lemma add_sleep_on_day (m : gmap date DailyAggregate.t) (s : SleepRecord.t) :
  add_sleep m s
  = on_day (SleepRecord.date_utc s)
      (set_sleep_quality (SleepRecord.quality_score s)
       ∘ set_sleep_hours (SleepRecord.duration_hours s)
       ∘ set_date_utc (SleepRecord.date_utc s)) m.
Proof. unfold add_sleep. by rewrite !on_day_on_day. Qed.

Lemma add_workout_on_day (m : gmap date DailyAggregate.t) (w : WorkoutRecord.t) :
  add_workout m w
  = on_day (WorkoutRecord.date_utc w)
      (add_total_workout_minutes (WorkoutRecord.duration_min w)
       ∘ add_total_calories (WorkoutRecord.calories w)
       ∘ append_workout w
       ∘ set_date_utc (WorkoutRecord.date_utc w)) m.
Proof. unfold add_workout. by rewrite !on_day_on_day. Qed.

(** The state of the mapping after the sleep loop. *)
Lemma sleep_loop_spec (ss : list SleepRecord.t) (day : date) :
  match foldl add_sleep ∅ ss !! day with
  | Some agg =>
      (∃ s, s ∈ ss ∧ SleepRecord.date_utc s = day)
      ∧ DailyAggregate.date_utc agg = Some day
      ∧ DailyAggregate.workouts agg = []
      ∧ DailyAggregate.total_calories agg = 0
      ∧ DailyAggregate.total_workout_minutes agg = 0
  | None => ∀ s, s ∈ ss → SleepRecord.date_utc s ≠ day
  end.
Proof.
  induction ss as [|s ss IH] using rev_ind.
  - simpl. rewrite lookup_empty. intros s Hs. by apply elem_of_nil in Hs.
  - rewrite foldl_app. simpl. rewrite add_sleep_on_day, lookup_on_day.
    destruct (decide (SleepRecord.date_utc s = day)) as [<- | Hne].
    + split; [exists s; split; [(apply elem_of_app; right; by apply list_elem_of_singleton)|done]|].
      destruct (foldl add_sleep ∅ ss !! SleepRecord.date_utc s) as [agg|];
        simpl; [|done].
      destruct IH as (_ & _ & -> & -> & ->). done.
    + destruct (foldl add_sleep ∅ ss !! day) as [agg|].
      * destruct IH as ((s0 & Hs0 & Hd) & IH). split; [|done].
        exists s0. split; [(apply elem_of_app; by left)|done].
      * intros s0 [Hs0 | ->%list_elem_of_singleton]%elem_of_app; auto.
  Qed.

(** The state of the mapping after the workout loop over [ws], started
    from the mapping [m0] the sleep loop left. *)
Lemma workout_loop_spec (m0 : gmap date DailyAggregate.t)
    (ws : list WorkoutRecord.t) (day : date) :
  (∀ agg, m0 !! day = Some agg →
          DailyAggregate.date_utc agg = Some day
          ∧ DailyAggregate.workouts agg = []
          ∧ DailyAggregate.total_calories agg = 0
          ∧ DailyAggregate.total_workout_minutes agg = 0) →
  match foldl add_workout m0 ws !! day with
  | Some agg =>
      (is_Some (m0 !! day) ∨ ∃ w, w ∈ ws ∧ WorkoutRecord.date_utc w = day)
      ∧ DailyAggregate.date_utc agg = Some day
      ∧ DailyAggregate.workouts agg
        = filter (λ w, WorkoutRecord.date_utc w = day) ws
      ∧ DailyAggregate.total_calories agg
        = sum_Z (WorkoutRecord.calories <$> DailyAggregate.workouts agg)
      ∧ DailyAggregate.total_workout_minutes agg
        = sum_Z (WorkoutRecord.duration_min <$> DailyAggregate.workouts agg)
  | None =>
      m0 !! day = None ∧ ∀ w, w ∈ ws → WorkoutRecord.date_utc w ≠ day
  end.
Proof.
  intros H0. induction ws as [|w ws IH] using rev_ind.
  - simpl. destruct (m0 !! day) as [agg|] eqn:Hm.
    + destruct (H0 agg eq_refl) as (? & -> & -> & ->). split; [eauto|done].
    + split; [done|]. intros w Hw. by apply elem_of_nil in Hw.
  - rewrite foldl_app. simpl. rewrite add_workout_on_day, lookup_on_day.
    rewrite filter_app, filter_cons, filter_nil.
    destruct (decide (WorkoutRecord.date_utc w = day)) as [<- | Hne].
    + split; [right; exists w; split; [(apply elem_of_app; right; by apply list_elem_of_singleton)|done]|]. simpl.
      destruct (foldl add_workout m0 ws !! WorkoutRecord.date_utc w) as [agg|];
        simpl.
      * destruct IH as (_ & _ & <- & -> & ->).
        rewrite !fmap_app, !sum_Z_app.
        change (sum_Z (WorkoutRecord.calories <$> [w]))
          with (WorkoutRecord.calories w + 0).
        change (sum_Z (WorkoutRecord.duration_min <$> [w]))
          with (WorkoutRecord.duration_min w + 0).
        rewrite !Z.add_0_r. done.
      * destruct IH as (_ & IH).
        replace (filter (λ w0, WorkoutRecord.date_utc w0 = WorkoutRecord.date_utc w) ws)
          with (@nil WorkoutRecord.t);
          [unfold sum_Z; simpl; repeat split; lia|].
        symmetry. apply elem_of_nil_inv.
        intros w0 [Hp Hin]%list_elem_of_filter. by apply (IH w0).
    + rewrite app_nil_r.
      destruct (foldl add_workout m0 ws !! day) as [agg|].
      * destruct IH as (Hsrc & IH). split; [|done].
        destruct Hsrc as [?|(w0 & Hw0 & Hd)]; [by left|].
        right. exists w0. split; [(apply elem_of_app; by left)|done].
      * destruct IH as (Hm & IH). split; [done|].
        intros w0 [Hw0 | ->%list_elem_of_singleton]%elem_of_app; auto.
Qed.
End merger.

(** C4.  In the mapping [merge_by_day] returns, every aggregate carries the
    workouts of its date in input order, and its two totals are the sums of
    [calories] and of [duration_min] over that list; a date has an entry
    exactly when it is the [date_utc] of some sleep record or of some
    workout record. *)
Theorem C4_merge_totals_and_keys (sleep_records : list SleepRecord.t)
    (workout_records : list WorkoutRecord.t) :
  let merged := tool_merger.merge_by_day sleep_records workout_records in
  (∀ day agg,
     merged !! day = Some agg →
     DailyAggregate.total_calories agg
     = sum_Z (WorkoutRecord.calories <$> DailyAggregate.workouts agg)
     ∧ DailyAggregate.total_workout_minutes agg
       = sum_Z (WorkoutRecord.duration_min <$> DailyAggregate.workouts agg)
     ∧ DailyAggregate.workouts agg
       = filter (λ w, WorkoutRecord.date_utc w = day) workout_records
     ∧ DailyAggregate.date_utc agg = Some day)
  ∧ (∀ day,
       day ∈ dom merged
       ↔ (∃ s, s ∈ sleep_records ∧ SleepRecord.date_utc s = day)
         ∨ (∃ w, w ∈ workout_records ∧ WorkoutRecord.date_utc w = day)).
Proof.
  intros merged. subst merged. unfold tool_merger.merge_by_day.
  set (m0 := foldl tool_merger.add_sleep ∅ sleep_records).
  assert (Hclean : ∀ day agg, m0 !! day = Some agg →
            DailyAggregate.date_utc agg = Some day
            ∧ DailyAggregate.workouts agg = []
            ∧ DailyAggregate.total_calories agg = 0
            ∧ DailyAggregate.total_workout_minutes agg = 0).
  { intros day agg Hagg. pose proof (sleep_loop_spec sleep_records day) as Hs.
    fold m0 in Hs. rewrite Hagg in Hs. apply Hs. }
  split.
  - intros day agg Hagg.
    pose proof (workout_loop_spec m0 workout_records day (Hclean day)) as Hw.
    rewrite Hagg in Hw. destruct Hw as (_ & Hd & Hws & Hc & Hm). done.
  - intros day. rewrite elem_of_dom.
    pose proof (sleep_loop_spec sleep_records day) as Hs. fold m0 in Hs.
    pose proof (workout_loop_spec m0 workout_records day (Hclean day)) as Hw.
    destruct (foldl tool_merger.add_workout m0 workout_records !! day) as [agg|].
    + split; [intros _|eauto].
      destruct Hw as ([[agg0 Hagg0] | Hex] & _); [|by right].
      rewrite Hagg0 in Hs. left. apply Hs.
    + destruct Hw as [Hnone Hw]. rewrite Hnone in Hs.
      split; [by intros []|].
      intros [(s & Hin & Hd) | (w & Hin & Hd)]; exfalso.
      * by apply (Hs s).
      * by apply (Hw w).
Qed.

(** ** Part II.5  True division and the correlations *)

(** A quotient of magnitude at most [2^1000] has a double. *)
Lemma true_div_Some (a b : Z) :
  b ≠ 0 → Z.abs a <= 2 ^ 1000 * Z.abs b → ∃ f, true_div a b = Some f.
Proof.
  intros Hb Hle. unfold true_div.
  destruct (Z.eqb_spec a 0) as [|Ha]; [eauto|].
  set (a' := Z.abs a) in *. set (b' := Z.abs b) in *.
  assert (Ha' : 0 < a') by (subst a'; lia).
  assert (Hb' : 0 < b') by (subst b'; lia).
  set (e0 := Z.log2 a' - Z.log2 b').
  set (e := if (if 0 <=? e0 then b' * 2 ^ e0 <=? a' else b' <=? a' * 2 ^ (- e0))
            then e0 else e0 - 1).
  assert (He0 : e0 <= 1000).
  { subst e0. pose proof (Z.log2_le_mono _ _ Hle) as Hmono.
    rewrite (Z.mul_comm (2 ^ 1000)), Z.log2_mul_pow2 in Hmono by lia. lia. }
  assert (He : e <= 1000) by (subst e; destruct (if 0 <=? e0 then _ else _); lia).
  cbv zeta. fold e0. fold e.
  set (k := Z.max (e - 52) (-1074)).
  destruct (Z.leb_spec 0 k) as [Hk | Hk].
  - set (q := a' / (b' * 2 ^ k)).
    set (r := a' mod (b' * 2 ^ k)).
    set (q' := if (b' * 2 ^ k <? 2 * r) || ((2 * r =? b' * 2 ^ k) && Z.odd q)
               then q + 1 else q).
    assert (Hpow : 0 < 2 ^ k) by (apply Z.pow_pos_nonneg; lia).
    assert (Hq : q * 2 ^ k <= 2 ^ 1000).
    { assert (Hd : 0 < b' * 2 ^ k) by nia.
      pose proof (Z.mul_div_le a' (b' * 2 ^ k) Hd) as Hmd. fold q in Hmd.
      assert (b' * (q * 2 ^ k) <= b' * 2 ^ 1000) by nia.
      apply (Z.mul_le_mono_pos_l _ _ b'); lia. }
    assert (Hk' : 2 ^ k <= 2 ^ 948) by (apply Z.pow_le_mono_r; lia).
    assert (Hq' : q' * 2 ^ k <= 2 ^ 1000 + 2 ^ 948).
    { subst q'. destruct (_ || _); nia. }
    assert (Hbig : 2 ^ 1000 + 2 ^ 948 < 2 ^ 1024).
    { replace 1024 with (1000 + 24) by lia. replace 1000 with (948 + 52) by lia.
      rewrite !Z.pow_add_r by lia.
      assert (0 < 2 ^ 948) by (apply Z.pow_pos_nonneg; lia).
      change (2 ^ 52) with 4503599627370496. change (2 ^ 24) with 16777216. nia. }
    destruct (Z.leb_spec (2 ^ 1024) (q' * 2 ^ k)); [lia|eauto].
  - rewrite (Z.pow_neg_r 2 k Hk), Z.mul_0_r.
    destruct (Z.leb_spec (2 ^ 1024) 0) as [Hbad|]; [|eauto].
    assert (0 < 2 ^ 1024) by (apply Z.pow_pos_nonneg; lia). lia.
Qed.

Lemma log2_bracket (a : Z) : 0 < a → 2 ^ Z.log2 a <= a < 2 ^ (Z.log2 a + 1).
Proof. intros Ha. pose proof (Z.log2_spec a Ha) as Hs. by rewrite <- Z.add_1_r in Hs. Qed.

(** The exponent [true_div] chooses is that of the quotient:
    [2^e <= a / b < 2^(e+1)]. *)
Lemma quotient_exponent (a b : Z) :
  0 < a → 0 < b →
  let e0 := Z.log2 a - Z.log2 b in
  let e := if (if 0 <=? e0 then b * 2 ^ e0 <=? a else b <=? a * 2 ^ (- e0))
           then e0 else e0 - 1 in
  if 0 <=? e then b * 2 ^ e <= a < b * 2 ^ (e + 1)
  else b <= a * 2 ^ (- e) ∧ a * 2 ^ (- e - 1) < b.
Proof.
  intros Ha Hb e0 e.
  pose proof (log2_bracket a Ha) as Hla. pose proof (log2_bracket b Hb) as Hlb.
  pose proof (Z.log2_nonneg a) as Hna. pose proof (Z.log2_nonneg b) as Hnb.
  set (la := Z.log2 a) in *. set (lb := Z.log2 b) in *.
  assert (Hpb : 0 < 2 ^ lb) by (apply Z.pow_pos_nonneg; lia).
  assert (Hpa : 0 < 2 ^ la) by (apply Z.pow_pos_nonneg; lia).
  subst e. destruct (Z.leb_spec 0 e0) as [He0|He0].
  - assert (Hsplit : 2 ^ la = 2 ^ lb * 2 ^ e0).
    { rewrite <- Z.pow_add_r by lia. f_equal. lia. }
    assert (Hp0 : 0 < 2 ^ e0) by (apply Z.pow_pos_nonneg; lia).
    destruct (Z.leb_spec (b * 2 ^ e0) a) as [Ht|Ht].
    + rewrite (proj2 (Z.leb_le 0 e0)) by lia.
      split; [done|]. rewrite Z.pow_add_r, Z.pow_1_r by lia.
      rewrite Z.pow_add_r, Z.pow_1_r in Hla by lia. nia.
    + destruct (Z.leb_spec 0 (e0 - 1)) as [He1|He1].
      * replace (e0 - 1 + 1) with e0 by lia. split; [|done].
        assert (Hs1 : 2 ^ e0 = 2 ^ (e0 - 1) * 2).
        { rewrite <- (Z.pow_1_r 2) at 3. rewrite <- Z.pow_add_r by lia. f_equal. lia. }
        rewrite Z.pow_add_r, Z.pow_1_r in Hlb by lia. nia.
      * assert (e0 = 0) as He by lia. rewrite He in *.
        change (- (0 - 1)) with 1. change (- (0 - 1) - 1) with 0.
        rewrite Z.pow_0_r in *. rewrite Z.pow_1_r.
        rewrite Z.pow_add_r, Z.pow_1_r in Hlb by lia. lia.
  - assert (Hsplit : 2 ^ lb = 2 ^ la * 2 ^ (- e0)).
    { rewrite <- Z.pow_add_r by lia. f_equal. lia. }
    assert (Hp0 : 0 < 2 ^ (- e0)) by (apply Z.pow_pos_nonneg; lia).
    assert (Hs1 : 2 ^ (- e0) = 2 ^ (- e0 - 1) * 2).
    { rewrite <- (Z.pow_1_r 2) at 3. rewrite <- Z.pow_add_r by lia. f_equal. lia. }
    assert (Hp1 : 0 < 2 ^ (- e0 - 1)) by (apply Z.pow_pos_nonneg; lia).
    destruct (Z.leb_spec b (a * 2 ^ (- e0))) as [Ht|Ht].
    + rewrite (proj2 (Z.leb_gt 0 e0)) by lia. split; [done|].
      rewrite Z.pow_add_r, Z.pow_1_r in Hla by lia. nia.
    + rewrite (proj2 (Z.leb_gt 0 (e0 - 1))) by lia.
      replace (- (e0 - 1) - 1) with (- e0) by lia. split; [|done].
      replace (- (e0 - 1)) with (- e0 + 1) by lia.
      rewrite Z.pow_add_r, Z.pow_1_r by lia.
      rewrite Z.pow_add_r, Z.pow_1_r in Hlb by lia. nia.
Qed.

(** Rounding the quotient [n / d] to the nearest integer, the even one on a
    tie. *)
Lemma round_half_even (n d : Z) :
  0 <= n → 0 < d →
  let q := n / d in
  let r := n mod d in
  let q' := if (d <? 2 * r) || ((2 * r =? d) && Z.odd q) then q + 1 else q in
  q <= q' <= q + 1
  ∧ 2 * Z.abs (q' * d - n) <= d
  ∧ (2 * Z.abs (q' * d - n) = d → Z.even q' = true).
Proof.
  intros Hn Hd q r q'.
  assert (Hdiv : n = d * q + r) by (apply Z.div_mod; lia).
  assert (Hr : 0 <= r < d) by (apply Z.mod_pos_bound; lia).
  subst q'. destruct (Z.ltb_spec d (2 * r)) as [Hlt|Hge]; simpl.
  - split; [lia|]. split; [lia|]. lia.
  - destruct (Z.eqb_spec (2 * r) d) as [Heq|Hne]; simpl.
    + destruct (Z.odd q) eqn:Hodd.
      * split; [lia|]. split; [lia|]. intros _.
        rewrite Z.add_1_r, Z.even_succ. done.
      * split; [lia|]. split; [lia|]. intros _.
        by rewrite <- Z.negb_odd, Hodd.
    + split; [lia|]. split; [lia|]. lia.
Qed.

(** [true_div] returns the double nearest to the quotient. *)
Lemma true_div_nearest (a b : Z) (f : pyfloat) :
  0 < a → 0 < b → true_div a b = Some f → nearest_double a b f.
Proof.
  intros Ha Hb. unfold true_div.
  destruct (Z.eqb_spec a 0) as [|_]; [lia|].
  rewrite (Z.sgn_pos a), (Z.sgn_pos b), (Z.abs_eq a), (Z.abs_eq b) by lia.
  pose proof (quotient_exponent a b Ha Hb) as He. cbv zeta in He |- *.
  set (e0 := Z.log2 a - Z.log2 b) in *.
  set (e := if (if 0 <=? e0 then b * 2 ^ e0 <=? a else b <=? a * 2 ^ (- e0))
            then e0 else e0 - 1) in *.
  set (k := Z.max (e - 52) (-1074)).
  set (n := if 0 <=? k then a else a * 2 ^ (- k)).
  set (d := if 0 <=? k then b * 2 ^ k else b).
  assert (Hn : 0 <= n).
  { subst n. destruct (0 <=? k); [lia|].
    assert (0 <= 2 ^ (- k)) by (apply Z.pow_nonneg; lia). nia. }
  assert (Hd : 0 < d).
  { subst d. destruct (Z.leb_spec 0 k); [|lia].
    assert (0 < 2 ^ k) by (apply Z.pow_pos_nonneg; lia). nia. }
  pose proof (round_half_even n d Hn Hd) as Hround. cbv zeta in Hround.
  set (q := n / d) in *. set (r := n mod d) in *.
  set (q' := if (d <? 2 * r) || ((2 * r =? d) && Z.odd q) then q + 1 else q) in *.
  destruct Hround as (Hq' & Herr & Htie).
  assert (Hq0 : 0 <= q) by (apply Z.div_pos; lia).
  assert (Hmant : q' <= 2 ^ 53 ∧ (2 ^ 52 <= q' ∨ k = -1074)).
  { assert (Hnd : d * q <= n < d * (q + 1)).
    { pose proof (Z.div_mod n d) as Hdm. pose proof (Z.mod_pos_bound n d Hd).
      fold q r in Hdm. fold r in H. lia. }
    destruct (Z.max_spec (e - 52) (-1074)) as [[Hlt Hk] | [Hge Hk]]; fold k in Hk.
    - (* the least exponent *)
      split; [|by right].
      assert (Hlt53 : n < 2 ^ 52 * d).
      { subst n d. rewrite Hk.
        rewrite (proj2 (Z.leb_gt 0 e)) in He by lia. destruct He as [_ He].
        change (- -1074) with 1074.
        assert (Hp : 2 ^ 1022 <= 2 ^ (- e - 1)) by (apply Z.pow_le_mono_r; lia).
        replace 1074 with (1022 + 52) by lia. rewrite Z.pow_add_r by lia.
        assert (Hy : 0 < 2 ^ 52) by done.
        set (X := 2 ^ (- e - 1)) in *. set (Y := 2 ^ 52) in *.
        set (W := 2 ^ 1022) in *.
        assert (a * W <= a * X) by (apply Z.mul_le_mono_nonneg_l; lia).
        assert (a * W * Y <= a * X * Y) by (apply Z.mul_le_mono_nonneg_r; lia).
        assert (a * X * Y < b * Y) by (apply Z.mul_lt_mono_pos_r; lia).
        change (0 <=? -1074) with false. cbv iota. lia. }
      assert (q < 2 ^ 52) by nia.
      assert (2 ^ 53 = 2 * 2 ^ 52) by done. lia.
    - assert (Hbr : 2 ^ 52 * d <= n < 2 ^ 53 * d).
      { subst n d. destruct (Z.leb_spec 0 k) as [Hk0|Hk0].
        - rewrite (proj2 (Z.leb_le 0 e)) in He by lia.
          replace e with (k + 52) in He by lia.
          replace (k + 52 + 1) with (k + 53) in He by lia.
          rewrite !Z.pow_add_r in He by lia. lia.
        - destruct (Z.leb_spec 0 e) as [He0|He0].
          + replace (- k) with (52 - e) by lia.
            assert (Hs : 2 ^ 52 = 2 ^ e * 2 ^ (52 - e)).
            { rewrite <- Z.pow_add_r by lia. f_equal. lia. }
            assert (Hs' : 2 ^ 53 = 2 ^ (e + 1) * 2 ^ (52 - e)).
            { rewrite <- Z.pow_add_r by lia. f_equal. lia. }
            rewrite Hs, Hs'.
            assert (0 < 2 ^ (52 - e)) by (apply Z.pow_pos_nonneg; lia). nia.
          + replace (- k) with (52 + - e) by lia.
            replace (52 + - e) with (53 + (- e - 1)) at 2 by lia.
            rewrite !Z.pow_add_r by lia.
            assert (0 < 2 ^ 52) by done. assert (0 < 2 ^ 53) by done. nia. }
      assert (2 ^ 52 <= q < 2 ^ 53) by nia.
      split; [lia|]. left. lia. }
  destruct (Z.leb_spec (2 ^ 1024) (q' * 2 ^ k)) as [|Hfin]; [done|].
  intros [= <-]. rewrite Z.mul_1_l. unfold nearest_double.
  fold n d. rewrite (Z.abs_eq q') by lia.
  split; [subst k; lia|]. split; [apply Hmant|]. split; [apply Hmant|].
  split; [done|]. split; [done|]. done.
Qed.

Section correlations.
Import tool_merger.

Lemma fin_cmp_int_mono (m e k k' : Z) :
  k <= k' → fin_cmp_int m e k = Lt → fin_cmp_int m e k' = Lt.
Proof.
  unfold fin_cmp_int. intros Hk. destruct (0 <=? e).
  - rewrite !Z.compare_lt_iff. lia.
  - rewrite !Z.compare_lt_iff.
    assert (0 <= 2 ^ (- e)) by (apply Z.pow_nonneg; lia). nia.
Qed.

(** Below 6 excludes at least 7; NaN is neither. *)
Lemma float_lt_6_not_ge_7 (h : pyfloat) :
  float_lt_int h 6 = true → float_ge_int h 7 = false.
Proof.
  destruct h as [|neg|m e]; simpl; [done|by intros ->|].
  destruct (fin_cmp_int m e 6) eqn:H6; try done. intros _.
  by rewrite (fin_cmp_int_mono m e 6 7) by (lia || done).
Qed.

Lemma float_ge_lt_exclusive (h : pyfloat) (k : Z) :
  float_ge_int h k = true → float_lt_int h k = false.
Proof.
  destruct h as [|neg|m e]; simpl; [done|by destruct neg|].
  by destruct (fin_cmp_int m e k).
Qed.

Lemma float_lt_ge_exclusive (h : pyfloat) (k : Z) :
  float_lt_int h k = true → float_ge_int h k = false.
Proof.
  destruct h as [|neg|m e]; simpl; [done|by destruct neg|].
  by destruct (fin_cmp_int m e k).
Qed.

Lemma sum_Z_bounds (l : list Z) (B : Z) :
  (∀ x, x ∈ l → 0 < x <= B) →
  0 <= sum_Z l <= B * Z.of_nat (length l) ∧ (l ≠ [] → 0 < sum_Z l).
Proof.
  unfold sum_Z. induction l as [|x l IH]; intros Hl; [simpl; split; [lia|done]|].
  destruct IH as [IH _]; [intros y Hy; apply Hl; by right|].
  assert (0 < x <= B) by (apply Hl; by left).
  rewrite length_cons, Nat2Z.inj_succ. cbn [foldr].
  split; [nia|]. intros _. lia.
Qed.

(** The mean of positive ints of at most 1000 bits is computed. *)
Lemma mean_Return (data : list Z) :
  data ≠ [] → (∀ x, x ∈ data → 0 < x <= 2 ^ 1000) →
  ∃ v, mean data = Return v.
Proof.
  intros Hne Hdata. unfold mean.
  destruct (sum_Z_bounds data (2 ^ 1000) Hdata) as [Hsum Hpos].
  specialize (Hpos Hne).
  assert (Hlen : 0 < Z.of_nat (length data)) by (destruct data; simpl; [done|lia]).
  destruct (Z.ltb_spec (Z.of_nat (length data)) 1); [lia|].
  destruct (_ =? 0); [eauto|].
  destruct (true_div_Some (sum_Z data) (Z.of_nat (length data))) as [f ->];
    [lia|lia|eauto].
Qed.

Lemma mean_nonempty (data : list Z) (v : json) :
  mean data = Return v → data ≠ [].
Proof. by destruct data. Qed.

Lemma count_bounds (p : DailyAggregate.t → bool) (l : list DailyAggregate.t) :
  0 <= count p l.
Proof. unfold count. lia. Qed.

Lemma count_and_le (p q : DailyAggregate.t → bool) (l : list DailyAggregate.t) :
  count (λ d, p d && q d) l <= count p l.
Proof.
  unfold count. apply inj_le.
  induction l as [|x l IH]; [done|].
  rewrite !filter_cons. destruct (p x), (q x); simpl;
    repeat case_decide; simpl; try done; lia.
Qed.

Lemma rate_Return (num den : Z) :
  0 < den → 0 <= num <= den → ∃ v, rate num den = Return v.
Proof.
  intros Hden Hnum. unfold rate.
  destruct (true_div_Some num den) as [f ->]; [lia| |eauto].
  assert (1 <= 2 ^ 1000) by (apply (Z.pow_le_mono_r 2 0 1000); lia). nia.
Qed.

(** What the two bucket blocks of [calculate_correlations] leave in the
    result. *)
Lemma calculate_correlations_Return (daily_data : gmap date DailyAggregate.t)
    (results : gmap string json) :
  calculate_correlations daily_data = Return results →
  (if bool_decide (low_sleep_days daily_data ≠ [])
   then ∃ avg,
          mean (DailyAggregate.total_calories <$> low_sleep_days daily_data)
          = Return avg
          ∧ results !! "avg_calories_low_sleep" = Some avg
          ∧ results !! "low_sleep_day_count"
            = Some (JInt (Z.of_nat (length (low_sleep_days daily_data))))
   else results !! "avg_calories_low_sleep" = None
        ∧ results !! "low_sleep_day_count" = None)
  ∧ (if bool_decide (good_sleep_days daily_data ≠ [])
     then ∃ avg,
            mean (DailyAggregate.total_calories <$> good_sleep_days daily_data)
            = Return avg
            ∧ results !! "avg_calories_good_sleep" = Some avg
            ∧ results !! "good_sleep_day_count"
              = Some (JInt (Z.of_nat (length (good_sleep_days daily_data))))
     else results !! "avg_calories_good_sleep" = None
          ∧ results !! "good_sleep_day_count" = None).
Proof.
  unfold calculate_correlations. intros Hrun.
  apply bind_Return in Hrun as (r1 & H1 & Hrun).
  apply bind_Return in Hrun as (r2 & H2 & Hrun).
  assert (Hkeep : ∀ k, k ≠ "workout_rate_low_sleep" →
                       k ≠ "workout_rate_good_sleep" →
                       results !! k = r2 !! k).
  { intros k Hk1 Hk2.
    match type of Hrun with
    | context [bool_decide ?P] => destruct (bool_decide P)
    end; [|by injection Hrun as <-].
    apply bind_Return in Hrun as (r3 & H3 & Hrun).
    assert (r3 !! k = r2 !! k) as <-.
    { match type of H3 with
      | context [?a <? ?b] => destruct (a <? b)
      end; [|by injection H3 as <-].
      apply bind_Return in H3 as (v & _ & [= <-]).
      by rewrite lookup_insert_ne. }
    match type of Hrun with
    | context [?a <? ?b] => destruct (a <? b)
    end; [|by injection Hrun as <-].
    apply bind_Return in Hrun as (v & _ & [= <-]).
    by rewrite lookup_insert_ne. }
  rewrite !Hkeep by done. clear Hkeep Hrun.
  assert (Hr1 :
    if bool_decide (low_sleep_days daily_data ≠ [])
    then ∃ avg,
           mean (DailyAggregate.total_calories <$> low_sleep_days daily_data)
           = Return avg
           ∧ r1 = <["low_sleep_day_count" :=
                      JInt (Z.of_nat (length (low_sleep_days daily_data)))]>
                    (<["avg_calories_low_sleep" := avg]> ∅)
    else r1 = ∅).
  { destruct (bool_decide (low_sleep_days daily_data ≠ []));
      [|by injection H1 as <-].
    apply bind_Return in H1 as (avg & Havg & [= <-]). eauto. }
  clear H1. split.
  - assert (Hsame : ∀ k, k ≠ "avg_calories_good_sleep" →
                         k ≠ "good_sleep_day_count" → r2 !! k = r1 !! k).
    { intros k Hk1 Hk2.
      destruct (bool_decide (good_sleep_days daily_data ≠ []));
        [|by injection H2 as <-].
      apply bind_Return in H2 as (avg & _ & [= <-]).
      by rewrite !lookup_insert_ne. }
    rewrite !Hsame by done.
    destruct (bool_decide (low_sleep_days daily_data ≠ [])).
    + destruct Hr1 as (avg & Havg & ->). exists avg.
      rewrite lookup_insert_ne, !lookup_insert_eq by done. done.
    + subst r1. by rewrite !lookup_empty.
  - destruct (bool_decide (good_sleep_days daily_data ≠ [])).
    + apply bind_Return in H2 as (avg & Havg & [= <-]). exists avg.
      rewrite lookup_insert_ne, !lookup_insert_eq by done. done.
    + injection H2 as <-.
      destruct (bool_decide (low_sleep_days daily_data ≠ [])).
      * destruct Hr1 as (avg & _ & ->). by rewrite !lookup_insert_ne.
      * subst r1. by rewrite !lookup_empty.
Qed.

(** With calorie totals of at most 1000 bits no division overflows, and
    [calculate_correlations] returns. *)
Lemma calculate_correlations_total (daily_data : gmap date DailyAggregate.t) :
  (∀ d, d ∈ values daily_data → DailyAggregate.total_calories d <= 2 ^ 1000) →
  ∃ results, calculate_correlations daily_data = Return results.
Proof.
  intros Hbound. unfold calculate_correlations.
  assert (Hmean : ∀ p : DailyAggregate.t → bool,
    (∀ d, p d = true → 0 < DailyAggregate.total_calories d) →
    filter (λ d, p d = true) (values daily_data) ≠ [] →
    ∃ v, mean (DailyAggregate.total_calories
                 <$> filter (λ d, p d = true) (values daily_data)) = Return v).
  { intros p Hp Hne. apply mean_Return.
    - by destruct (filter _ _).
    - intros x (d & -> & [Hpd Hd]%list_elem_of_filter)%list_elem_of_fmap.
      split; [by apply Hp|by apply Hbound]. }
  assert (Hlow : ∀ d, is_low_sleep_day d = true → 0 < DailyAggregate.total_calories d).
  { intros d. unfold is_low_sleep_day.
    destruct (DailyAggregate.sleep_hours d); [|done].
    intros [_ ?%Z.ltb_lt]%andb_prop. done. }
  assert (Hgood : ∀ d, is_good_sleep_day d = true → 0 < DailyAggregate.total_calories d).
  { intros d. unfold is_good_sleep_day.
    destruct (DailyAggregate.sleep_hours d); [|done].
    intros [_ ?%Z.ltb_lt]%andb_prop. done. }
  assert (H1 : ∃ r1,
    (if bool_decide (low_sleep_days daily_data ≠ [])
     then avg ← mean (DailyAggregate.total_calories <$> low_sleep_days daily_data);
          Return (<["low_sleep_day_count" :=
                      JInt (Z.of_nat (length (low_sleep_days daily_data)))]>
                    (<["avg_calories_low_sleep" := avg]> (∅ : gmap string json)))
     else Return ∅) = Return r1).
  { case_bool_decide as Hne; [|eauto].
    destruct (Hmean is_low_sleep_day Hlow Hne) as [v Hv].
    unfold low_sleep_days. rewrite Hv. simpl. eauto. }
  destruct H1 as [r1 ->]. simpl.
  assert (H2 : ∃ r2,
    (if bool_decide (good_sleep_days daily_data ≠ [])
     then avg ← mean (DailyAggregate.total_calories <$> good_sleep_days daily_data);
          Return (<["good_sleep_day_count" :=
                      JInt (Z.of_nat (length (good_sleep_days daily_data)))]>
                    (<["avg_calories_good_sleep" := avg]> r1))
     else Return r1) = Return r2).
  { case_bool_decide as Hne; [|eauto].
    destruct (Hmean is_good_sleep_day Hgood Hne) as [v Hv].
    unfold good_sleep_days. rewrite Hv. simpl. eauto. }
  destruct H2 as [r2 ->]. simpl.
  case_bool_decide; [|eauto].
  set (days := filter _ (values daily_data)).
  destruct (Z.ltb_spec 0 (count (hours_lt 6) days)) as [Hl|Hl].
  - destruct (rate_Return
                (count (λ d, hours_lt 6 d && (0 <? length (DailyAggregate.workouts d))%nat) days)
                (count (hours_lt 6) days)) as [v ->];
      [done|split; [apply count_bounds|apply count_and_le]|]. simpl.
    destruct (Z.ltb_spec 0 (count (hours_ge 7) days)) as [Hg|Hg]; [|eauto].
    destruct (rate_Return
                (count (λ d, hours_ge 7 d && (0 <? length (DailyAggregate.workouts d))%nat) days)
                (count (hours_ge 7) days)) as [v' ->];
      [done|split; [apply count_bounds|apply count_and_le]|]. simpl. eauto.
  - simpl.
    destruct (Z.ltb_spec 0 (count (hours_ge 7) days)) as [Hg|Hg]; [|eauto].
    destruct (rate_Return
                (count (λ d, hours_ge 7 d && (0 <? length (DailyAggregate.workouts d))%nat) days)
                (count (hours_ge 7) days)) as [v' ->];
      [done|split; [apply count_bounds|apply count_and_le]|]. simpl. eauto.
Qed.
Lemma sum_Z_Permutation (l1 l2 : list Z) : l1 ≡ₚ l2 → sum_Z l1 = sum_Z l2.
Proof.
  unfold sum_Z. induction 1 as [|x l1 l2 _ IH|x y l|l1 l2 l3 _ IH1 _ IH2];
    simpl; lia.
Qed.

Lemma sum_Z_pos (l : list Z) : l ≠ [] → (∀ x, x ∈ l → 0 < x) → 0 < sum_Z l.
Proof.
  unfold sum_Z. induction l as [|x l IH]; [done|]. intros _ Hl.
  assert (0 < x) by (apply Hl; left).
  destruct l as [|y l]; [simpl; lia|].
  assert (0 < foldr Z.add 0 (y :: l)); [|simpl in *; lia].
  apply IH; [done|]. intros z Hz. apply Hl. by right.
Qed.

(** The mean [statistics.mean] returns for positive ints. *)
Lemma mean_is_mean (data : list Z) (v : json) :
  (∀ x, x ∈ data → 0 < x) → mean data = Return v →
  is_mean (sum_Z data) (Z.of_nat (length data)) v.
Proof.
  intros Hpos. unfold mean.
  destruct (Z.ltb_spec (Z.of_nat (length data)) 1) as [|Hn]; [done|].
  assert (Hne : data ≠ []) by (intros ->; simpl in Hn; lia).
  pose proof (sum_Z_pos data Hne Hpos) as Hsum.
  destruct (Z.eqb_spec (sum_Z data mod Z.of_nat (length data)) 0) as [Hmod|Hmod].
  - intros [= <-]. left. eexists. split; [done|].
    apply Z.div_exact in Hmod; lia.
  - destruct (true_div _ _) as [f|] eqn:Hdiv; [|done]. intros [= <-].
    right. split; [done|]. exists f. split; [done|].
    apply true_div_nearest; [done|lia|done].
Qed.

(** The list a comprehension over [daily_data.values()] builds has the
    aggregates of the days that pass the test, one for each day. *)
Lemma filter_values (p : DailyAggregate.t → bool)
    (daily_data : gmap date DailyAggregate.t) :
  filter (λ d, p d = true) (values daily_data)
  ≡ₚ (map_to_list (filter (λ kv, p kv.2 = true) daily_data)).*2.
Proof.
  unfold values.
  assert (Hf : ∀ l : list (date * DailyAggregate.t),
            filter (λ d, p d = true) l.*2 = (filter (λ kv, p kv.2 = true) l).*2).
  { induction l as [|[k d] l IH]; [done|].
    rewrite fmap_cons, !filter_cons. simpl. destruct (decide (p d = true)).
    - by rewrite fmap_cons, IH.
    - done. }
  rewrite Hf, map_filter_alt. apply fmap_Permutation. symmetry.
  apply map_to_list_to_map.
  eapply sublist_NoDup; [apply (NoDup_fst_map_to_list daily_data)|].
  apply fmap_sublist, sublist_filter.
Qed.

Lemma bucket_length (p : DailyAggregate.t → bool)
    (daily_data : gmap date DailyAggregate.t) :
  length (filter (λ d, p d = true) (values daily_data))
  = size (filter (λ kv, p kv.2 = true) daily_data).
Proof.
  rewrite (filter_values p daily_data), length_fmap.
  apply length_map_to_list.
Qed.

Lemma bucket_nonempty (p : DailyAggregate.t → bool)
    (daily_data : gmap date DailyAggregate.t) :
  filter (λ d, p d = true) (values daily_data) ≠ []
  ↔ filter (λ kv, p kv.2 = true) daily_data ≠ ∅.
Proof.
  rewrite <- map_size_non_empty_iff, <- bucket_length.
  destruct (filter _ (values daily_data)); simpl; split; (done || lia).
Qed.

Lemma is_low_sleep_day_spec (d : DailyAggregate.t) :
  is_low_sleep_day d = true
  ↔ 0 < DailyAggregate.total_calories d
    ∧ ∃ h, DailyAggregate.sleep_hours d = Some h ∧ float_lt_int h 6 = true.
Proof.
  unfold is_low_sleep_day. destruct (DailyAggregate.sleep_hours d) as [h|].
  - rewrite andb_true_iff, Z.ltb_lt. split.
    + intros [? ?]. eauto.
    + intros (? & h' & [= <-] & ?). done.
  - split; [done|]. by intros (_ & h & ? & _).
Qed.

Lemma is_good_sleep_day_spec (d : DailyAggregate.t) :
  is_good_sleep_day d = true
  ↔ 0 < DailyAggregate.total_calories d
    ∧ ∃ h, DailyAggregate.sleep_hours d = Some h ∧ float_ge_int h 7 = true.
Proof.
  unfold is_good_sleep_day. destruct (DailyAggregate.sleep_hours d) as [h|].
  - rewrite andb_true_iff, Z.ltb_lt. split.
    + intros [? ?]. eauto.
    + intros (? & h' & [= <-] & ?). done.
  - split; [done|]. by intros (_ & h & ? & _).
Qed.

(** What one bucket block of [calculate_correlations] reports, in terms of
    the days of the mapping. *)
Lemma bucket_report (p : DailyAggregate.t → bool)
    (daily_data : gmap date DailyAggregate.t) (results : gmap string json)
    (count_key avg_key : string) :
  (∀ d, p d = true → 0 < DailyAggregate.total_calories d) →
  let days := filter (λ d, p d = true) (values daily_data) in
  let bucket := filter (λ kv, p kv.2 = true) daily_data in
  (if bool_decide (days ≠ [])
   then ∃ avg,
          mean (DailyAggregate.total_calories <$> days) = Return avg
          ∧ results !! avg_key = Some avg
          ∧ results !! count_key = Some (JInt (Z.of_nat (length days)))
   else results !! avg_key = None ∧ results !! count_key = None) →
  (is_Some (results !! count_key) ↔ bucket ≠ ∅)
  ∧ (is_Some (results !! avg_key) ↔ bucket ≠ ∅)
  ∧ (bucket ≠ ∅ →
     results !! count_key = Some (JInt (Z.of_nat (size bucket)))
     ∧ ∃ avg,
         results !! avg_key = Some avg
         ∧ is_mean
             (sum_Z ((λ kv, DailyAggregate.total_calories kv.2) <$> map_to_list bucket))
             (Z.of_nat (size bucket)) avg).
Proof.
  intros Hpos days bucket Hrep.
  pose proof (bucket_nonempty p daily_data) as Hne. fold days bucket in Hne.
  pose proof (bucket_length p daily_data) as Hlen. fold days bucket in Hlen.
  destruct (decide (days ≠ [])) as [Hdays|Hdays].
  - rewrite bool_decide_eq_true_2 in Hrep by done.
    destruct Hrep as (avg & Havg & Hra & Hrc). rewrite Hra, Hrc, Hlen.
    assert (Hb : bucket ≠ ∅) by by apply Hne.
    split; [split; eauto|]. split; [split; eauto|]. intros _.
    split; [done|]. exists avg. split; [done|].
    apply mean_is_mean in Havg.
    + rewrite length_fmap, Hlen in Havg.
      replace (sum_Z ((λ kv, DailyAggregate.total_calories kv.2) <$> map_to_list bucket))
        with (sum_Z (DailyAggregate.total_calories <$> days)); [done|].
      apply sum_Z_Permutation.
      trans (DailyAggregate.total_calories <$> (map_to_list bucket).*2).
      * apply fmap_Permutation, filter_values.
      * by rewrite <- list_fmap_compose.
    + intros x (d & -> & [Hp _]%list_elem_of_filter)%list_elem_of_fmap. by apply Hpos.
  - rewrite bool_decide_eq_false_2 in Hrep by done.
    destruct Hrep as [-> ->].
    assert (Hb : ¬ bucket ≠ ∅) by (intros Hb; by apply Hdays, Hne).
    repeat split; try done; by intros [? ?].
Qed.
End correlations.

(** C5.  [calculate_correlations] sorts the days of the mapping with
    positive [total_calories] into two buckets: a day is in the low-sleep
    bucket exactly when its aggregate has a sleep value below 6, in the
    good-sleep bucket exactly when it has one of at least 7; no day is in
    both, and a day with no sleep value or with one in [6,7) is in
    neither.  The lists the function builds hold the aggregates of these
    days, one for each day.  When the function returns, the count and the
    mean of a bucket are in the result exactly when the bucket has a day;
    the count is then the number of days of the bucket, and the mean is
    the sum of their calorie totals divided by that number: the int
    quotient when the division is exact, else the double nearest to the
    fraction.  The function returns whenever the calorie totals have at
    most 1000 bits. *)
Theorem C5_correlation_buckets (daily_data : gmap date DailyAggregate.t) :
  let low :=
    filter (λ kv, tool_merger.is_low_sleep_day kv.2 = true) daily_data in
  let good :=
    filter (λ kv, tool_merger.is_good_sleep_day kv.2 = true) daily_data in
  let calories (bucket : gmap date DailyAggregate.t) : Z :=
    sum_Z ((λ kv, DailyAggregate.total_calories kv.2) <$> map_to_list bucket) in
  (∀ day d, low !! day = Some d ↔
        daily_data !! day = Some d ∧ 0 < DailyAggregate.total_calories d
        ∧ ∃ h, DailyAggregate.sleep_hours d = Some h ∧ float_lt_int h 6 = true)
  ∧ (∀ day d, good !! day = Some d ↔
          daily_data !! day = Some d ∧ 0 < DailyAggregate.total_calories d
          ∧ ∃ h, DailyAggregate.sleep_hours d = Some h ∧ float_ge_int h 7 = true)
  ∧ (∀ day, low !! day = None ∨ good !! day = None)
  ∧ (∀ day d,
       daily_data !! day = Some d →
       (DailyAggregate.sleep_hours d = None
        ∨ (∃ h, DailyAggregate.sleep_hours d = Some h
                ∧ float_ge_int h 6 = true ∧ float_lt_int h 7 = true)) →
       low !! day = None ∧ good !! day = None)
  ∧ tool_merger.low_sleep_days daily_data ≡ₚ (map_to_list low).*2
  ∧ tool_merger.good_sleep_days daily_data ≡ₚ (map_to_list good).*2
  ∧ (∀ results,
       tool_merger.calculate_correlations daily_data = Return results →
       (is_Some (results !! "low_sleep_day_count") ↔ low ≠ ∅)
       ∧ (is_Some (results !! "avg_calories_low_sleep") ↔ low ≠ ∅)
       ∧ (low ≠ ∅ →
          results !! "low_sleep_day_count" = Some (JInt (Z.of_nat (size low)))
          ∧ ∃ avg, results !! "avg_calories_low_sleep" = Some avg
                   ∧ is_mean (calories low) (Z.of_nat (size low)) avg)
       ∧ (is_Some (results !! "good_sleep_day_count") ↔ good ≠ ∅)
       ∧ (is_Some (results !! "avg_calories_good_sleep") ↔ good ≠ ∅)
       ∧ (good ≠ ∅ →
          results !! "good_sleep_day_count" = Some (JInt (Z.of_nat (size good)))
          ∧ ∃ avg, results !! "avg_calories_good_sleep" = Some avg
                   ∧ is_mean (calories good) (Z.of_nat (size good)) avg))
  ∧ ((∀ day d, daily_data !! day = Some d →
               DailyAggregate.total_calories d <= 2 ^ 1000) →
     ∃ results, tool_merger.calculate_correlations daily_data = Return results).
Proof.
  intros low good calories.
  assert (Hlow : ∀ day d, low !! day = Some d ↔
        daily_data !! day = Some d ∧ 0 < DailyAggregate.total_calories d
        ∧ ∃ h, DailyAggregate.sleep_hours d = Some h ∧ float_lt_int h 6 = true).
  { intros day d. subst low. rewrite map_lookup_filter_Some. simpl.
    by rewrite is_low_sleep_day_spec. }
  assert (Hgood : ∀ day d, good !! day = Some d ↔
        daily_data !! day = Some d ∧ 0 < DailyAggregate.total_calories d
        ∧ ∃ h, DailyAggregate.sleep_hours d = Some h ∧ float_ge_int h 7 = true).
  { intros day d. subst good. rewrite map_lookup_filter_Some. simpl.
    by rewrite is_good_sleep_day_spec. }
  split; [done|]. split; [done|].
  split; [|split; [|split; [|split; [|split]]]].
  - intros day. destruct (low !! day) as [d|] eqn:Hl; [|by left]. right.
    destruct (good !! day) as [d'|] eqn:Hg; [|done]. exfalso.
    apply Hlow in Hl as (Hd & _ & h & Hh & Hlt).
    apply Hgood in Hg as (Hd' & _ & h' & Hh' & Hge).
    rewrite Hd in Hd'. injection Hd' as <-.
    rewrite Hh in Hh'. injection Hh' as <-.
    by rewrite (float_lt_6_not_ge_7 h Hlt) in Hge.
  - intros day d Hday Hd. split.
    + destruct (low !! day) as [d'|] eqn:Hl; [|done]. exfalso.
      apply Hlow in Hl as (Hd' & _ & h & Hh & Hlt).
      rewrite Hday in Hd'. injection Hd' as <-.
      destruct Hd as [Hnone | (h' & Hh' & Hge & _)]; [congruence|].
      rewrite Hh in Hh'. injection Hh' as <-.
      by rewrite (float_ge_lt_exclusive h 6 Hge) in Hlt.
    + destruct (good !! day) as [d'|] eqn:Hg; [|done]. exfalso.
      apply Hgood in Hg as (Hd' & _ & h & Hh & Hge).
      rewrite Hday in Hd'. injection Hd' as <-.
      destruct Hd as [Hnone | (h' & Hh' & _ & Hlt)]; [congruence|].
      rewrite Hh in Hh'. injection Hh' as <-.
      by rewrite (float_lt_ge_exclusive h 7 Hlt) in Hge.
  - apply (filter_values tool_merger.is_low_sleep_day).
  - apply (filter_values tool_merger.is_good_sleep_day).
  - intros results [Hl Hg]%calculate_correlations_Return.
    apply (bucket_report tool_merger.is_low_sleep_day) in Hl;
      [|by intros d [? _]%is_low_sleep_day_spec].
    apply (bucket_report tool_merger.is_good_sleep_day) in Hg;
      [|by intros d [? _]%is_good_sleep_day_spec].
    destruct Hl as (Hl1 & Hl2 & Hl3). destruct Hg as (Hg1 & Hg2 & Hg3).
    exact (conj Hl1 (conj Hl2 (conj Hl3 (conj Hg1 (conj Hg2 Hg3))))).
  - intros Hbound. apply calculate_correlations_total.
    intros d (kv & -> & Hkv)%list_elem_of_fmap. destruct kv as [day d].
    apply elem_of_map_to_list in Hkv. by apply (Hbound day).
Qed.

(** ** Part II.6  Validation of the required fields *)

Section validation.
Context `{Host}.

(** [sorted(s)] lists the elements of [s], each once, in the order of
    Python's string comparison. *)
Lemma sorted_spec (s : gset string) :
  (∀ x, x ∈ sorted s ↔ x ∈ s) ∧ NoDup (sorted s)
  ∧ StronglySorted String.le (sorted s).
Proof.
  unfold sorted. split; [|split].
  - intros x. rewrite merge_sort_Permutation. apply elem_of_elements.
  - rewrite merge_sort_Permutation. apply NoDup_elements.
  - apply (StronglySorted_merge_sort _).
Qed.

Lemma StronglySorted_filter {A} (R : relation A) (P : A → Prop)
    `{∀ x, Decision (P x)} (l : list A) :
  StronglySorted R l → StronglySorted R (filter P l).
Proof.
  induction 1 as [|x l Hl IH Hx]; [constructor|].
  rewrite filter_cons. case_decide; [|done].
  constructor; [done|].
  apply Forall_forall. intros y [_ Hy]%list_elem_of_filter.
  by apply (proj1 (Forall_forall _ _) Hx).
Qed.

(** The sorted missing fields are the sorted required fields with the
    present ones left out. *)
Lemma sorted_difference (req ks : gset string) :
  sorted (req ∖ ks) = filter (λ f, f ∉ ks) (sorted req).
Proof.
  destruct (sorted_spec (req ∖ ks)) as (Hin & Hnd & Hs).
  destruct (sorted_spec req) as (Hin' & Hnd' & Hs').
  apply (StronglySorted_unique String.le); [done| |].
  - by apply StronglySorted_filter.
  - apply NoDup_Permutation; [done|by apply NoDup_filter|].
    intros x. rewrite Hin, list_elem_of_filter, Hin', elem_of_difference. tauto.
Qed.

Lemma sorted_WORKOUT_REQUIRED_FIELDS :
  sorted tool_data_loader.WORKOUT_REQUIRED_FIELDS
  = ["calories"; "duration_min"; "id"; "timestamp"; "type"; "tz"].
Proof. vm_compute. reflexivity. Qed.

Lemma sorted_SLEEP_REQUIRED_FIELDS :
  sorted tool_data_loader.SLEEP_REQUIRED_FIELDS
  = ["duration_hours"; "quality_score"; "sleep_end"; "sleep_start"].
Proof. vm_compute. reflexivity. Qed.

Lemma validate_workout_entry_missing (m : gmap string json) (idx : nat) :
  tool_data_loader.WORKOUT_REQUIRED_FIELDS ∖ dom m ≠ ∅ →
  tool_data_loader.validate_workout_entry (JObj m) idx
  = raise ValueError
      ("Workout record " +:+ pretty idx +:+ ": Missing required fields: "
       +:+ join ", "
             (filter (λ f, f ∉ dom m)
                ["calories"; "duration_min"; "id"; "timestamp"; "type"; "tz"])
       +:+ ". Required: calories, duration_min, id, timestamp, type, tz").
Proof.
  intros Hmiss. unfold tool_data_loader.validate_workout_entry. simpl.
  rewrite bool_decide_eq_true_2 by done.
  rewrite sorted_difference, sorted_WORKOUT_REQUIRED_FIELDS. reflexivity.
Qed.

Lemma validate_sleep_entry_missing (m : gmap string json) (idx : nat) :
  tool_data_loader.SLEEP_REQUIRED_FIELDS ∖ dom m ≠ ∅ →
  tool_data_loader.validate_sleep_entry (JObj m) idx
  = raise ValueError
      ("Sleep record " +:+ pretty idx +:+ ": Missing required fields: "
       +:+ join ", "
             (filter (λ f, f ∉ dom m)
                ["duration_hours"; "quality_score"; "sleep_end"; "sleep_start"])
       +:+ ". Required: duration_hours, quality_score, sleep_end, sleep_start").
Proof.
  intros Hmiss. unfold tool_data_loader.validate_sleep_entry. simpl.
  rewrite bool_decide_eq_true_2 by done.
  rewrite sorted_difference, sorted_SLEEP_REQUIRED_FIELDS. reflexivity.
Qed.
End validation.

(** C6.  An entry that lacks required fields fails validation with a
    [ValueError] whose message lists all the missing fields, in the order
    of the sorted required fields: for a workout entry and for a sleep
    entry.  The failure is the outcome of the whole entry, whatever the
    host's zone database and time-stamp parser would say: a workout entry
    without [tz] names [tz] in the message and is the same [ValueError] on
    every host, so neither [ZoneInfo] nor [strptime] decides it. *)
Theorem C6_missing_fields `{Host} (m : gmap string json) (idx : nat) :
  (tool_data_loader.WORKOUT_REQUIRED_FIELDS ∖ dom m ≠ ∅ →
   let names :=
     filter (λ f, f ∉ dom m)
       ["calories"; "duration_min"; "id"; "timestamp"; "type"; "tz"] in
   let e :=
     Exn ValueError
       ("Workout record " +:+ pretty idx +:+ ": Missing required fields: "
        +:+ join ", " names
        +:+ ". Required: calories, duration_min, id, timestamp, type, tz") in
   tool_data_loader.validate_workout_entry (JObj m) idx = Raise e
   ∧ tool_data_loader.workout_entry idx (JObj m) = Raise e
   ∧ (∀ f, f ∈ names ↔ f ∈ tool_data_loader.WORKOUT_REQUIRED_FIELDS ∧ f ∉ dom m)
   ∧ NoDup names ∧ StronglySorted String.le names
   ∧ (m !! "tz" = None → "tz" ∈ names)
   ∧ (∀ H' : Host, @tool_data_loader.workout_entry H' idx (JObj m) = Raise e))
  ∧ (tool_data_loader.SLEEP_REQUIRED_FIELDS ∖ dom m ≠ ∅ →
     let names :=
       filter (λ f, f ∉ dom m)
         ["duration_hours"; "quality_score"; "sleep_end"; "sleep_start"] in
     let e :=
       Exn ValueError
         ("Sleep record " +:+ pretty idx +:+ ": Missing required fields: "
          +:+ join ", " names
          +:+ ". Required: duration_hours, quality_score, sleep_end, sleep_start") in
     tool_data_loader.validate_sleep_entry (JObj m) idx = Raise e
     ∧ tool_data_loader.sleep_entry idx (JObj m) = Raise e
     ∧ (∀ f, f ∈ names ↔ f ∈ tool_data_loader.SLEEP_REQUIRED_FIELDS ∧ f ∉ dom m)
     ∧ NoDup names ∧ StronglySorted String.le names).
Proof.
  split.
  - intros Hmiss names e.
    assert (Hv : ∀ H' : Host,
              @tool_data_loader.validate_workout_entry H' (JObj m) idx = Raise e).
    { intros H'. by rewrite validate_workout_entry_missing. }
    assert (He : ∀ H' : Host,
              @tool_data_loader.workout_entry H' idx (JObj m) = Raise e).
    { intros H'. unfold tool_data_loader.workout_entry. by rewrite Hv. }
    destruct (sorted_spec (tool_data_loader.WORKOUT_REQUIRED_FIELDS ∖ dom m))
      as (Hin & Hnd & Hs).
    rewrite sorted_difference, sorted_WORKOUT_REQUIRED_FIELDS in Hin, Hnd, Hs.
    fold names in Hin, Hnd, Hs.
    split; [done|]. split; [done|]. split.
    { intros f. rewrite Hin. apply elem_of_difference. }
    split; [done|]. split; [done|]. split; [|done].
    intros Htz. apply Hin, elem_of_difference. split.
    + unfold tool_data_loader.WORKOUT_REQUIRED_FIELDS.
      rewrite !elem_of_union, !elem_of_singleton. tauto.
    + by apply not_elem_of_dom.
  - intros Hmiss names e.
    assert (Hv : tool_data_loader.validate_sleep_entry (JObj m) idx = Raise e).
    { by rewrite validate_sleep_entry_missing. }
    destruct (sorted_spec (tool_data_loader.SLEEP_REQUIRED_FIELDS ∖ dom m))
      as (Hin & Hnd & Hs).
    rewrite sorted_difference, sorted_SLEEP_REQUIRED_FIELDS in Hin, Hnd, Hs.
    fold names in Hin, Hnd, Hs.
    split; [done|]. split.
    { unfold tool_data_loader.sleep_entry. by rewrite Hv. }
    split; [|done]. intros f. rewrite Hin. apply elem_of_difference.
Qed.

(** ** Part II.7  Zero offset, and the reporter *)

Lemma string_app_assoc (a b c : string) : (a +:+ b) +:+ c = a +:+ (b +:+ c).
Proof.
  induction a as [|x a IH]; [done|].
  change (String x ((a +:+ b) +:+ c) = String x (a +:+ (b +:+ c))).
  by rewrite IH.
Qed.

(** A time stamp in zone UTC reads as the same naive time stamp followed
    by [+00:00]. *)
Lemma isoformat_utc (d : date) (hh mi ss us : Z) :
  isoformat (DateTime d hh mi ss us (Some 0))
  = isoformat (DateTime d hh mi ss us None) +:+ "+00:00".
Proof.
  unfold isoformat. simpl.
  rewrite !string_app_assoc. reflexivity.
Qed.

(** C9.  When the zone of an accepted workout entry has offset zero, the
    ISO text of [timestamp_utc] is the ISO text of the parsed wall time
    followed by [+00:00], the day boundary is not crossed, and the record
    is attributed to the local date. *)
Theorem C9_zero_offset_round_trip `{Host} (idx : nat) (entry : json)
    (r : WorkoutRecord.t) (local_tz : tzinfo) (local_dt : datetime) :
  tool_data_loader.workout_entry idx entry = Return r →
  ZoneInfo_call (WorkoutRecord.original_timezone r) = Return local_tz →
  strptime (WorkoutRecord.original_timestamp r) = Return local_dt →
  (∀ dt, utcoffset local_tz dt = 0) →
  isoformat (WorkoutRecord.timestamp_utc r) = isoformat local_dt +:+ "+00:00"
  ∧ WorkoutRecord.crossed_day_boundary r = false
  ∧ WorkoutRecord.date_utc r = date_of local_dt.
Proof.
  intros Hentry Htz Hts Hzero.
  apply tool_workout_entry_Return in Hentry
    as (local_tz' & local_dt' & idv & typev & dmv & calv & _ & _ & Htz' & _
        & Hts' & Hutc & Hdate & Hcross & _).
  rewrite Htz in Htz'. injection Htz' as <-.
  rewrite Hts in Hts'. injection Hts' as <-.
  assert (Hnew : ∃ y m d hh mi ss, datetime_new y m d hh mi ss = Some local_dt).
  { unfold strptime in Hts.
    destruct (WorkoutRecord.original_timestamp r); try done.
    destruct (strptime_match s) as [[[[[[y m] d] hh] mi] ss]|]; [|done].
    destruct (datetime_new y m d hh mi ss) as [dt|] eqn:Hnew; [|done].
    injection Hts as <-. eauto 7. }
  destruct Hnew as (y & m & d & hh & mi & ss & Hnew).
  unfold astimezone_utc in Hutc.
  rewrite Hzero, (sub_seconds_zero _ _ _ _ _ _ _ Hnew) in Hutc.
  injection Hutc as Hutc.
  apply datetime_new_Some in Hnew as (-> & _).
  rewrite Hdate, Hcross, <- Hutc. simpl.
  split; [apply isoformat_utc|]. split; [|done].
  by apply bool_decide_eq_false_2; intros Hne.
Qed.

Section reporter.
Context `{Host}.
Import tool_reporter.

Lemma dict_keys_nil (merged : gmap date DailyAggregate.t) :
  dict_keys merged = [] ↔ merged = ∅.
Proof.
  unfold dict_keys. rewrite <- map_to_list_empty_iff. split.
  - apply fmap_nil_inv.
  - by intros ->.
Qed.

Lemma min_date_Return (l : list date) : l ≠ [] → ∃ d, min_date l = Return d.
Proof. destruct l; [done|]. simpl. eauto. Qed.

Lemma max_date_Return (l : list date) : l ≠ [] → ∃ d, max_date l = Return d.
Proof. destruct l; [done|]. simpl. eauto. Qed.

(** On the empty mapping the date range has no minimum: a [ValueError]. *)
Lemma generate_json_output_empty (workout_records : list WorkoutRecord.t)
    (correlations : gmap string json) :
  generate_json_output ∅ workout_records correlations
  = raise ValueError (runtime_msg "min" (JArr [])).
Proof.
  unfold generate_json_output.
  replace (dict_keys (∅ : gmap date DailyAggregate.t)) with (@nil date);
    [done|]. symmetry. by apply dict_keys_nil.
Qed.

Lemma generate_json_output_Return_nonempty (merged : gmap date DailyAggregate.t)
    (workout_records : list WorkoutRecord.t) (correlations : gmap string json)
    (out : json) :
  generate_json_output merged workout_records correlations = Return out →
  merged ≠ ∅.
Proof. intros Hout ->. by rewrite generate_json_output_empty in Hout. Qed.

(** The [correlations] block of a returned document. *)
Lemma generate_json_output_correlations (merged : gmap date DailyAggregate.t)
    (workout_records : list WorkoutRecord.t) (correlations : gmap string json)
    (low_avg good_avg : json) :
  merged ≠ ∅ →
  round_2 (get_or_0 correlations "avg_calories_low_sleep") = Return low_avg →
  round_2 (get_or_0 correlations "avg_calories_good_sleep") = Return good_avg →
  ∃ out c,
    generate_json_output merged workout_records correlations = Return out
    ∧ getitem out "correlations" = Return c
    ∧ getitem c "low_sleep_days"
      = Return (dict [ ("count", get_or_0 correlations "low_sleep_day_count");
                       ("avg_calories_burned", low_avg) ])
    ∧ getitem c "good_sleep_days"
      = Return (dict [ ("count", get_or_0 correlations "good_sleep_day_count");
                       ("avg_calories_burned", good_avg) ]).
Proof.
  intros Hne Hlow Hgood. unfold generate_json_output.
  assert (Hkeys : dict_keys merged ≠ []) by by rewrite dict_keys_nil.
  destruct (min_date_Return _ Hkeys) as [start ->].
  destruct (max_date_Return _ Hkeys) as [end_ ->].
  simpl. rewrite Hlow. simpl. rewrite Hgood. simpl.
  eexists _, _. split; [reflexivity|]. split; [reflexivity|]. done.
Qed.

Lemma mean_numeric (data : list Z) (v : json) :
  mean data = Return v → (∃ z, v = JInt z) ∨ (∃ f, v = JFloat f).
Proof.
  unfold mean. destruct (_ <? 1); [done|]. destruct (_ =? 0).
  - intros [= <-]. eauto.
  - destruct (true_div _ _); [|done]. intros [= <-]. eauto.
Qed.

Lemma round_2_numeric (v : json) :
  (∃ z, v = JInt z) ∨ (∃ f, v = JFloat f) → ∃ v', round_2 v = Return v'.
Proof. intros [[z ->] | [f ->]]; simpl; eauto. Qed.

(** The averages [calculate_correlations] leaves in its result are
    numbers, so [round] accepts them. *)
Lemma correlations_avg_round (daily_data : gmap date DailyAggregate.t)
    (correlations : gmap string json) :
  tool_merger.calculate_correlations daily_data = Return correlations →
  (∃ v, round_2 (get_or_0 correlations "avg_calories_low_sleep") = Return v)
  ∧ (∃ v, round_2 (get_or_0 correlations "avg_calories_good_sleep") = Return v).
Proof.
  intros [Hl Hg]%calculate_correlations_Return. unfold get_or_0. split.
  - destruct (bool_decide _).
    + destruct Hl as (avg & Havg%mean_numeric & -> & _).
      by apply round_2_numeric.
    + destruct Hl as [-> _]. simpl. eauto.
  - destruct (bool_decide (tool_merger.good_sleep_days _ ≠ _)).
    + destruct Hg as (avg & Havg%mean_numeric & -> & _).
      by apply round_2_numeric.
    + destruct Hg as [-> _]. simpl. eauto.
Qed.
End reporter.

(** C7.  A sleep entry whose [duration_hours] is NaN passes the range
    test, because both comparisons of [duration_hours < 0 or
    duration_hours > 24] are false for NaN: the loader returns a record
    whose duration is NaN, a value that is not between 0 and 24. *)
Theorem C7_nan_duration_accepted :
  @tool_data_loader.load_sleep_data sample_host.host examples.nan_doc
  = Return ([examples.nan_night_record], [])
  ∧ SleepRecord.duration_hours examples.nan_night_record = FNaN
  ∧ float_ge_int FNaN 0 = false ∧ float_le_int FNaN 24 = false.
Proof. vm_compute. done. Qed.

(** C8 as stated fails in two ways.  On the empty mapping no day has
    little sleep and the correlations are computed (and empty), yet
    [generate_json_output] raises instead of returning a document.  On a
    mapping with one day that has no sleep value, and a dictionary that is
    not the one computed from it, the document reports the count and the
    average of the dictionary, 5 and 100, and not 0. *)
Lemma C8_counterexample :
  (let merged := tool_merger.merge_by_day [] [] in
   (¬ ∃ day d h, merged !! day = Some d
                 ∧ DailyAggregate.sleep_hours d = Some h
                 ∧ float_lt_int h 6 = true
                 ∧ 0 < DailyAggregate.total_calories d)
   ∧ tool_merger.calculate_correlations merged = Return ∅
   ∧ ¬ ∃ out, @tool_reporter.generate_json_output sample_host.host merged [] ∅
              = Return out)
  ∧ (let merged := tool_merger.merge_by_day [] [examples.morning_record] in
     let correlations : gmap string json :=
       <["low_sleep_day_count" := JInt 5]>
         (<["avg_calories_low_sleep" := JInt 100]> ∅) in
     merged ≠ ∅
     ∧ (¬ ∃ day d h, merged !! day = Some d
                     ∧ DailyAggregate.sleep_hours d = Some h
                     ∧ float_lt_int h 6 = true
                     ∧ 0 < DailyAggregate.total_calories d)
     ∧ tool_merger.calculate_correlations merged ≠ Return correlations
     ∧ ∃ out c b,
         @tool_reporter.generate_json_output sample_host.host merged
           [examples.morning_record] correlations = Return out
         ∧ @getitem sample_host.host out "correlations" = Return c
         ∧ @getitem sample_host.host c "low_sleep_days" = Return b
         ∧ @getitem sample_host.host b "count" = Return (JInt 5)
         ∧ @getitem sample_host.host b "avg_calories_burned" = Return (JInt 100)).
Proof.
  split.
  - split; [|split].
    + intros (day & d & h & Hd & _).
      unfold tool_merger.merge_by_day in Hd. simpl in Hd.
      by rewrite lookup_empty in Hd.
    + reflexivity.
    + intros [out Hout]. by apply generate_json_output_Return_nonempty in Hout.
  - assert (Hdays : map_to_list (tool_merger.merge_by_day [] [examples.morning_record])
                    = [(Date 2023 10 2,
                        DailyAggregate.mk (Some (Date 2023 10 2)) None None
                          [examples.morning_record] 250 30)])
      by (vm_compute; reflexivity).
    assert (Hne : tool_merger.merge_by_day [] [examples.morning_record] ≠ ∅).
    { intros Hempty. rewrite Hempty, map_to_list_empty in Hdays.
      discriminate Hdays. }
    split; [exact Hne|]. split; [|split].
    + intros (day & d & h & Hd & Hh & _).
      apply elem_of_map_to_list in Hd. rewrite Hdays in Hd.
      apply list_elem_of_singleton in Hd. injection Hd as _ ->.
      discriminate Hh.
    + intros Hcorr. 
      apply (f_equal (λ r, match r with
                           | Return m => m !! "low_sleep_day_count"
                           | Raise _ => None
                           end)) in Hcorr.
      vm_compute in Hcorr. discriminate Hcorr.
    + destruct (@generate_json_output_correlations sample_host.host
                  (tool_merger.merge_by_day [] [examples.morning_record])
                  [examples.morning_record]
                  (<["low_sleep_day_count" := JInt 5]>
                     (<["avg_calories_low_sleep" := JInt 100]> ∅))
                  (JInt 100) (JInt 0) Hne)
        as (out & c & Hout & Hc & Hb & _); [reflexivity|reflexivity|].
      eexists out, c, _. split; [exact Hout|]. split; [exact Hc|].
      split; [exact Hb|]. split; reflexivity.
Qed.

(** C8, amended.  For a mapping with at least one day and the
    correlations [calculate_correlations] returns for it: when no day has
    a sleep value below 6 together with positive calories,
    [generate_json_output] returns a document whose
    [correlations.low_sleep_days] has [count] 0 and [avg_calories_burned]
    0; and likewise [good_sleep_days] when no day has a sleep value of at
    least 7 together with positive calories. *)
Theorem C8_empty_bucket_reported `{Host} (merged : gmap date DailyAggregate.t)
    (workout_records : list WorkoutRecord.t) (correlations : gmap string json) :
  merged ≠ ∅ →
  tool_merger.calculate_correlations merged = Return correlations →
  ((¬ ∃ day d h, merged !! day = Some d
                 ∧ DailyAggregate.sleep_hours d = Some h
                 ∧ float_lt_int h 6 = true
                 ∧ 0 < DailyAggregate.total_calories d) →
   ∃ out c b,
     tool_reporter.generate_json_output merged workout_records correlations
     = Return out
     ∧ getitem out "correlations" = Return c
     ∧ getitem c "low_sleep_days" = Return b
     ∧ getitem b "count" = Return (JInt 0)
     ∧ getitem b "avg_calories_burned" = Return (JInt 0))
  ∧ ((¬ ∃ day d h, merged !! day = Some d
                   ∧ DailyAggregate.sleep_hours d = Some h
                   ∧ float_ge_int h 7 = true
                   ∧ 0 < DailyAggregate.total_calories d) →
     ∃ out c b,
       tool_reporter.generate_json_output merged workout_records correlations
       = Return out
       ∧ getitem out "correlations" = Return c
       ∧ getitem c "good_sleep_days" = Return b
       ∧ getitem b "count" = Return (JInt 0)
       ∧ getitem b "avg_calories_burned" = Return (JInt 0)).
Proof.
  intros Hne Hcorr.
  destruct (correlations_avg_round merged correlations Hcorr)
    as [[low_avg Hlow] [good_avg Hgood]].
  destruct (generate_json_output_correlations merged workout_records
              correlations low_avg good_avg Hne Hlow Hgood)
    as (out & c & Hout & Hc & Hl & Hg).
  pose proof (calculate_correlations_Return merged correlations Hcorr) as [Kl Kg].
  assert (Hnil : ∀ p : DailyAggregate.t → bool,
            (∀ day d, merged !! day = Some d → p d = true → False) →
            filter (λ d, p d = true) (tool_merger.values merged) = []).
  { intros p Hp. apply elem_of_nil_inv.
    intros d [Hpd (kv & -> & Hkv)%list_elem_of_fmap]%list_elem_of_filter.
    destruct kv as [day d]. apply elem_of_map_to_list in Hkv.
    exact (Hp day d Hkv Hpd). }
  split; intros Hnone.
  - eexists out, c, _. split; [done|]. split; [done|]. split; [exact Hl|].
    assert (Hempty : tool_merger.low_sleep_days merged = []).
    { apply Hnil. intros day d Hd (Hcal & h & Hh & Hlt)%is_low_sleep_day_spec.
      apply Hnone. eauto 8. }
    rewrite Hempty, bool_decide_eq_false_2 in Kl by auto.
    destruct Kl as [Kavg Kcount].
    unfold tool_reporter.get_or_0 in Hlow |- *. rewrite Kavg in Hlow.
    rewrite Kcount. injection Hlow as <-. done.
  - eexists out, c, _. split; [done|]. split; [done|]. split; [exact Hg|].
    assert (Hempty : tool_merger.good_sleep_days merged = []).
    { apply Hnil. intros day d Hd (Hcal & h & Hh & Hge)%is_good_sleep_day_spec.
      apply Hnone. eauto 8. }
    rewrite Hempty, bool_decide_eq_false_2 in Kg by auto.
    destruct Kg as [Kavg Kcount].
    unfold tool_reporter.get_or_0 in Hgood |- *. rewrite Kavg in Hgood.
    rewrite Kcount. injection Hgood as <-. done.
Qed.

(** C10.  Merging two empty lists gives the empty mapping, on which
    [generate_json_output] raises the [ValueError] of [min] on no element,
    whatever the other arguments; so a returned document implies at least
    one merged day. *)
Theorem C10_empty_mapping_raises `{Host} :
  tool_merger.merge_by_day [] [] = ∅
  ∧ (∀ workout_records correlations,
       tool_reporter.generate_json_output (tool_merger.merge_by_day [] [])
         workout_records correlations
       = Raise (Exn ValueError (runtime_msg "min" (JArr []))))
  ∧ (∀ merged workout_records correlations out,
       tool_reporter.generate_json_output merged workout_records correlations
       = Return out →
       merged ≠ ∅).
Proof.
  split; [done|]. split.
  - intros workout_records correlations. apply generate_json_output_empty.
  - apply @generate_json_output_Return_nonempty.
Qed.

(** ** Part II.8  The theorems on the example documents *)

Lemma C1_day_boundary_witness :
  @tool_data_loader.load_workout_data sample_host.host examples.workouts_doc
  = Return ([examples.evening_record; examples.morning_record], [])
  ∧ (∃ local_tz local_dt,
       @ZoneInfo_call sample_host.host
         (WorkoutRecord.original_timezone examples.evening_record)
       = Return local_tz
       ∧ @strptime sample_host.host
           (WorkoutRecord.original_timestamp examples.evening_record)
         = Return local_dt
       ∧ astimezone_utc local_tz local_dt
         = Return (WorkoutRecord.timestamp_utc examples.evening_record)
       ∧ (WorkoutRecord.crossed_day_boundary examples.evening_record = true
          ↔ date_of local_dt
            ≠ date_of (WorkoutRecord.timestamp_utc examples.evening_record))
       ∧ WorkoutRecord.date_utc examples.evening_record
         = date_of (WorkoutRecord.timestamp_utc examples.evening_record))
  ∧ WorkoutRecord.timestamp_utc examples.evening_record
    = DateTime (Date 2023 10 2) 6 15 0 0 (Some 0)
  ∧ WorkoutRecord.crossed_day_boundary examples.evening_record = true
  ∧ WorkoutRecord.date_utc examples.evening_record = Date 2023 10 2.
Proof.
  assert (Hload :
    @tool_data_loader.load_workout_data sample_host.host examples.workouts_doc
    = Return ([examples.evening_record; examples.morning_record], []))
    by (vm_compute; reflexivity).
  split; [exact Hload|]. split.
  - apply (proj1 (@C1_day_boundary sample_host.host) examples.workouts_doc
             [examples.evening_record; examples.morning_record] []
             examples.evening_record Hload).
    left.
  - apply (proj2 (@C1_day_boundary sample_host.host)
             (TzInfo sample_host.los_angeles) examples.evening_run 0%nat
             examples.evening_record).
    + vm_compute. reflexivity.
    + reflexivity.
    + vm_compute. reflexivity.
    + vm_compute. reflexivity.
    + vm_compute. reflexivity.
    + vm_compute. reflexivity.
Defined.

Lemma C2_sleep_date_witness :
  @tool_data_loader.load_sleep_data sample_host.host examples.sleep_doc
  = Return ([examples.short_night_record], [])
  ∧ SleepRecord.date_utc examples.short_night_record
    = date_of (SleepRecord.sleep_end_utc examples.short_night_record)
  ∧ SleepRecord.date_utc examples.short_night_record
    ≠ date_of (SleepRecord.sleep_start_utc examples.short_night_record).
Proof.
  assert (Hload :
    @tool_data_loader.load_sleep_data sample_host.host examples.sleep_doc
    = Return ([examples.short_night_record], []))
    by (vm_compute; reflexivity).
  assert (Hin : examples.short_night_record ∈ [examples.short_night_record])
    by left.
  destruct (@C2_sleep_date sample_host.host examples.sleep_doc _ _ _ Hload Hin)
    as (Hdate & Hstart & _).
  split; [exact Hload|]. split; [exact Hdate|].
  apply Hstart. vm_compute. discriminate.
Defined.

Lemma C3_loaders_agree_witness :
  ∃ rs,
    @data_loader.load_workout_data sample_host.host examples.workouts_doc
    = Return rs
    ∧ @tool_data_loader.load_workout_data sample_host.host examples.workouts_doc
      = Return (rs, []).
Proof.
  apply (proj2 (proj2 (@C3_loaders_agree sample_host.host examples.workouts_doc))
           examples.workout_log
           [JObj examples.evening_run; JObj examples.morning_run]).
  - reflexivity.
  - vm_compute. reflexivity.
  - intros [|[|i]] entry Hentry.
    + injection Hentry as <-. exists examples.evening_record.
      vm_compute. reflexivity.
    + injection Hentry as <-. exists examples.morning_record.
      vm_compute. reflexivity.
    + discriminate Hentry.
Defined.

Lemma C4_merge_totals_and_keys_witness :
  ∃ agg,
    examples.merged !! Date 2023 10 2 = Some agg
    ∧ DailyAggregate.total_calories agg
      = sum_Z (WorkoutRecord.calories <$> DailyAggregate.workouts agg)
    ∧ DailyAggregate.workouts agg
      = [examples.evening_record; examples.morning_record]
    ∧ Date 2023 10 2 ∈ dom examples.merged.
Proof.
  assert (Hagg : ∃ agg, examples.merged !! Date 2023 10 2 = Some agg)
    by (eexists; vm_compute; reflexivity).
  destruct Hagg as [agg Hagg]. exists agg.
  destruct (proj1 (C4_merge_totals_and_keys [examples.short_night_record]
                     [examples.evening_record; examples.morning_record])
              _ _ Hagg) as (Hcal & Hmin & Hws & _).
  split; [exact Hagg|]. split; [exact Hcal|]. split.
  - rewrite Hws. vm_compute. reflexivity.
  - apply (proj2 (C4_merge_totals_and_keys [examples.short_night_record]
                    [examples.evening_record; examples.morning_record])).
    left. exists examples.short_night_record. split; [left|reflexivity].
Defined.

Lemma examples_values :
  ∃ agg, tool_merger.values examples.merged = [agg]
         ∧ DailyAggregate.total_calories agg = 650
         ∧ DailyAggregate.sleep_hours agg = Some (FFin 5 0).
Proof. eexists. vm_compute. done. Defined.

Lemma C5_correlation_buckets_witness :
  ∃ results,
    tool_merger.calculate_correlations examples.merged = Return results
    ∧ results !! "low_sleep_day_count" = Some (JInt 1)
    ∧ results !! "avg_calories_low_sleep" = Some (JInt 650)
    ∧ results !! "good_sleep_day_count" = None
    ∧ results !! "avg_calories_good_sleep" = None.
Proof.
  pose proof (C5_correlation_buckets examples.merged)
    as (_ & _ & _ & _ & _ & _ & Hres & Htotal).
  destruct Htotal as [results Hresults].
  { intros day d Hd.
    assert (Hin : d ∈ tool_merger.values examples.merged).
    { apply list_elem_of_fmap. exists (day, d). split; [done|].
      by apply elem_of_map_to_list. }
    destruct examples_values as (agg & Hv & Hcal & _). rewrite Hv in Hin.
    apply list_elem_of_singleton in Hin as ->. rewrite Hcal.
    apply Z.leb_le. vm_compute. reflexivity. }
  exists results. split; [exact Hresults|].
  destruct (Hres results Hresults) as (_ & _ & Hlow & Hgc & Hga & _).
  assert (Hsize : size (filter (λ kv : date * DailyAggregate.t,
                                  tool_merger.is_low_sleep_day kv.2 = true)
                          examples.merged) = 1%nat) by (vm_compute; reflexivity).
  destruct Hlow as (Hcount & avg & Havg & Hmean).
  { apply map_size_non_empty_iff. rewrite Hsize. discriminate. }
  rewrite Hsize in Hcount, Hmean.
  assert (Hgood : filter (λ kv : date * DailyAggregate.t,
                            tool_merger.is_good_sleep_day kv.2 = true)
                    examples.merged = ∅).
  { apply map_size_empty_iff. vm_compute. reflexivity. }
  rewrite Hgood in Hgc, Hga.
  split; [exact Hcount|]. split; [|split].
  - rewrite Havg. f_equal.
    assert (Hsum : sum_Z ((λ kv : date * DailyAggregate.t,
                             DailyAggregate.total_calories kv.2)
                          <$> map_to_list
                                (filter (λ kv : date * DailyAggregate.t,
                                           tool_merger.is_low_sleep_day kv.2 = true)
                                   examples.merged)) = 650)
      by (vm_compute; reflexivity).
    rewrite Hsum in Hmean.
    destruct Hmean as [(z & -> & Hz) | (Hmod & _)].
    + f_equal. lia.
    + exfalso. apply Hmod. reflexivity.
  - destruct (results !! "good_sleep_day_count") as [v|] eqn:Hv; [|reflexivity].
    exfalso. apply (proj1 Hgc); [eauto|reflexivity].
  - destruct (results !! "avg_calories_good_sleep") as [v|] eqn:Hv; [|reflexivity].
    exfalso. apply (proj1 Hga); [eauto|reflexivity].
Defined.

Lemma C6_missing_fields_witness :
  @tool_data_loader.validate_workout_entry sample_host.host
    (JObj examples.incomplete_run) 3
  = Raise (Exn ValueError
             ("Workout record " +:+ pretty 3%nat +:+ ": Missing required fields: "
              +:+ join ", "
                    (filter (λ f, f ∉ dom examples.incomplete_run)
                       ["calories"; "duration_min"; "id"; "timestamp"; "type"; "tz"])
              +:+ ". Required: calories, duration_min, id, timestamp, type, tz"))
  ∧ "tz" ∈ filter (λ f, f ∉ dom examples.incomplete_run)
             ["calories"; "duration_min"; "id"; "timestamp"; "type"; "tz"].
Proof.
  assert (Hmiss : tool_data_loader.WORKOUT_REQUIRED_FIELDS
                  ∖ dom examples.incomplete_run ≠ ∅).
  { intros Hempty. apply (f_equal elements) in Hempty.
    vm_compute in Hempty. discriminate Hempty. }
  destruct (proj1 (@C6_missing_fields sample_host.host examples.incomplete_run 3)
              Hmiss) as (Hv & _ & _ & _ & _ & Htz & _).
  split; [exact Hv|]. apply Htz. vm_compute. reflexivity.
Defined.

Lemma examples_merged_nonempty : examples.merged ≠ ∅.
Proof.
  intros Hempty. apply (f_equal (λ m, m !! Date 2023 10 2)) in Hempty.
  vm_compute in Hempty. discriminate Hempty.
Defined.

Lemma examples_correlations :
  ∃ correlations,
    tool_merger.calculate_correlations examples.merged = Return correlations.
Proof.
  apply calculate_correlations_total.
  destruct examples_values as (agg & -> & Hcal & _).
  intros d ->%list_elem_of_singleton. rewrite Hcal.
  apply Z.leb_le. vm_compute. reflexivity.
Defined.

Lemma C8_empty_bucket_reported_witness :
  ∃ correlations out c b,
    tool_merger.calculate_correlations examples.merged = Return correlations
    ∧ @tool_reporter.generate_json_output sample_host.host examples.merged
        [examples.evening_record; examples.morning_record] correlations
      = Return out
    ∧ @getitem sample_host.host out "correlations" = Return c
    ∧ @getitem sample_host.host c "good_sleep_days" = Return b
    ∧ @getitem sample_host.host b "count" = Return (JInt 0)
    ∧ @getitem sample_host.host b "avg_calories_burned" = Return (JInt 0).
Proof.
  destruct examples_correlations as [correlations Hcorr]. exists correlations.
  destruct (proj2 (@C8_empty_bucket_reported sample_host.host examples.merged
                     [examples.evening_record; examples.morning_record]
                     correlations examples_merged_nonempty Hcorr))
    as (out & c & b & Hout & Hc & Hb & Hcount & Havg).
  { intros (day & d & h & Hd & Hh & Hge & _).
    assert (Hin : d ∈ tool_merger.values examples.merged).
    { apply list_elem_of_fmap. exists (day, d). split; [reflexivity|].
      apply elem_of_map_to_list. exact Hd. }
    destruct examples_values as (agg & Hv & _ & Hsleep). rewrite Hv in Hin.
    apply list_elem_of_singleton in Hin. subst d.
    rewrite Hsleep in Hh. injection Hh as <-. discriminate Hge. }
  exists out, c, b. repeat split; assumption.
Defined.

Lemma C9_zero_offset_round_trip_witness :
  @tool_data_loader.workout_entry sample_host.host 1 (JObj examples.morning_run)
  = Return examples.morning_record
  ∧ isoformat (WorkoutRecord.timestamp_utc examples.morning_record)
    = isoformat (DateTime (Date 2023 10 2) 8 30 0 0 None) +:+ "+00:00"
  ∧ WorkoutRecord.crossed_day_boundary examples.morning_record = false
  ∧ WorkoutRecord.date_utc examples.morning_record
    = date_of (DateTime (Date 2023 10 2) 8 30 0 0 None).
Proof.
  assert (Hentry :
    @tool_data_loader.workout_entry sample_host.host 1 (JObj examples.morning_run)
    = Return examples.morning_record) by (vm_compute; reflexivity).
  split; [exact Hentry|].
  apply (@C9_zero_offset_round_trip sample_host.host 1
           (JObj examples.morning_run) examples.morning_record
           (TzInfo (λ _, 0)) (DateTime (Date 2023 10 2) 8 30 0 0 None) Hentry).
  - reflexivity.
  - vm_compute. reflexivity.
  - intros dt. reflexivity.
Defined.

Lemma C10_empty_mapping_raises_witness :
  ∃ out,
    @tool_reporter.generate_json_output sample_host.host examples.merged [] ∅
    = Return out
    ∧ examples.merged ≠ ∅.
Proof.
  assert (Hlow : @tool_reporter.round_2 sample_host.host
                   (tool_reporter.get_or_0 ∅ "avg_calories_low_sleep")
                 = Return (JInt 0)) by (vm_compute; reflexivity).
  assert (Hgood : @tool_reporter.round_2 sample_host.host
                    (tool_reporter.get_or_0 ∅ "avg_calories_good_sleep")
                  = Return (JInt 0)) by (vm_compute; reflexivity).
  destruct (@generate_json_output_correlations sample_host.host examples.merged
              [] ∅ (JInt 0) (JInt 0) examples_merged_nonempty Hlow Hgood)
    as (out & _ & Hout & _).
  exists out. split; [exact Hout|].
  exact (proj2 (proj2 (@C10_empty_mapping_raises sample_host.host))
           examples.merged [] ∅ out Hout).
Defined.

(** * Part III  Further properties of the code *)

(** ** Part III.1  The loaders *)

Section loops_more.
Context {R : Type} (f : nat → json → result R) (cs : list exn_class).



End loops_more.

















(** ** Part III.2  The merger *)

Section merger_more.
Import tool_merger.



End merger_more.

(** ** Part III.3  The workout rates *)

Section rates.
Import tool_merger.





End rates.


(** ** Part III.4  The report *)

Lemma date_leb_spec (a b : date) :
  date_leb a b = true
  ↔ year a < year b
    ∨ (year a = year b
       ∧ (month a < month b ∨ (month a = month b ∧ day a <= day b))).
Proof.
  unfold date_leb.
  rewrite orb_true_iff, andb_true_iff, orb_true_iff, andb_true_iff.
  rewrite !Z.ltb_lt, !Z.eqb_eq, Z.leb_le. done.
Qed.


#[local] Instance date_le_trans : Transitive date_le.
Proof. intros a b c. unfold date_le. rewrite !date_leb_spec. lia. Qed.

Lemma date_le_antisym (a b : date) : date_le a b → date_le b a → a = b.
Proof.
  unfold date_le. rewrite !date_leb_spec. destruct a, b. simpl.
  intros ? ?. f_equal; lia.
Qed.

Section report.
Context `{Host}.
Import tool_reporter.









End report.



(** ** Part III.5  The further properties on the example documents *)














